(** * gtn_metadata_fetcher.py: the GTN metadata fetcher and its summary report

    A shallow embedding of [src/gtn_metadata_fetcher.py].  The script is a
    straight-line sequence of HTTP GETs and [print] calls wrapped in one
    [try]/[except]; it is modelled in a small reader/writer/exception monad:

    - the reader part is the [world], the answer of the network to each URL;
    - the writer part is the log of observable events ([print] to either
      stream, and the GET requests), in program order;
    - the exception part is Python's [raise], caught by [try_except].

    Values decoded from JSON are the Python values [json.loads] builds.
    Strings are UTF-8 byte strings.  The text an f-string produces is kept as
    its sequence of literal fragments and formatted values ([text]), so that
    no claim depends on how [str()] renders a float or a nested container;
    [render] gives the characters for the values whose rendering is plain.

    Behaviour of the [requests] library that the script relies on
    ([Response.raise_for_status], [Response.json] and the exception classes)
    follows requests 2.27 and later.  [Response.json] turns the decoder's
    [JSONDecodeError] into the one of [requests] and lets the other failures
    of the decoder through as they are.

    The strings of a decoded value are well-formed UTF-8 (no lone
    surrogate), and both standard streams take UTF-8, so that [print] does
    not fail to encode what it is given. *)

From Stdlib Require Import List String Ascii ZArith Bool Lia.
From Stdlib Require Import SpecFloat DecimalString.
Import ListNotations.
Local Open Scope string_scope.
Set Warnings "-register-all".

(** ** Python values decoded from JSON *)

Inductive json : Type :=
| JNull
| JBool (b : bool)
| JInt (n : Z)
| JFloat (f : spec_float)
| JStr (s : string)
| JArr (items : list json)
| JObj (fields : list (string * json)).

(** [type(v).__name__], as it appears in the messages of the interpreter. *)
Definition type_name (v : json) : string :=
  match v with
  | JNull => "NoneType"
  | JBool _ => "bool"
  | JInt _ => "int"
  | JFloat _ => "float"
  | JStr _ => "str"
  | JArr _ => "list"
  | JObj _ => "dict"
  end.

(** [bool(v)]: the truth value tested by [if v:]. *)
Definition truthy (v : json) : bool :=
  match v with
  | JNull => false
  | JBool b => b
  | JInt n => negb (n =? 0)%Z
  | JFloat (S754_zero _) => false
  | JFloat _ => true
  | JStr s => negb (s =? "")
  | JArr items => match items with [] => false | _ => true end
  | JObj fields => match fields with [] => false | _ => true end
  end.

(** A dict is kept as its items in insertion order; the decoder leaves no
    duplicate keys, so the first match is the entry. *)
Fixpoint dict_get (fields : list (string * json)) (key : string) : option json :=
  match fields with
  | [] => None
  | (k, v) :: rest => if k =? key then Some v else dict_get rest key
  end.

(** Number of code points of a UTF-8 string: bytes that are not
    continuation bytes (10xxxxxx). *)
Definition is_continuation (c : ascii) : bool :=
  let n := nat_of_ascii c in (128 <=? n)%nat && (n <? 192)%nat.

Fixpoint str_len (s : string) : nat :=
  match s with
  | EmptyString => 0
  | String c rest => (if is_continuation c then 0 else 1) + str_len rest
  end.

Fixpoint take_continuation (s : string) : string :=
  match s with
  | String c rest => if is_continuation c then String c (take_continuation rest) else ""
  | EmptyString => ""
  end.

(** ** Formatted text *)

Inductive piece : Type :=
| Lit (s : string)
| Fmt (v : json).

Definition text : Type := list piece.

Definition nl : string := String (ascii_of_nat 10) "".

Fixpoint str_repeat (s : string) (n : nat) : string :=
  match n with
  | O => ""
  | S k => s ++ str_repeat s k
  end.

Definition str_of_Z (n : Z) : string := NilZero.string_of_int (Z.to_int n).

(** [str(v)] for the values whose rendering is immediate. *)
Definition py_str (v : json) : option string :=
  match v with
  | JNull => Some "None"
  | JBool true => Some "True"
  | JBool false => Some "False"
  | JInt n => Some (str_of_Z n)
  | JStr s => Some s
  | _ => None
  end.

Fixpoint render (t : text) : option string :=
  match t with
  | [] => Some ""
  | Lit s :: rest => option_map (append s) (render rest)
  | Fmt v :: rest =>
      match py_str v, render rest with
      | Some s, Some r => Some (s ++ r)
      | _, _ => None
      end
  end.

(** ** Exceptions *)

Inductive exn_class : Type :=
| RequestException   (* requests.exceptions.RequestException and the
                        transport subclasses: ConnectionError, Timeout, ... *)
| HTTPError          (* requests.exceptions.HTTPError(RequestException) *)
| JSONDecodeError    (* requests.exceptions.JSONDecodeError(InvalidJSONError) *)
| ValueError         (* builtin; raised by the JSON decoder *)
| RecursionError     (* builtin; raised by the JSON decoder *)
| AttributeError
| TypeError
| KeyError
| IndexError.

Inductive exn : Type :=
| Exn (cls : exn_class) (msg : text)
| SystemExit (code : Z).

(** [isinstance(e, requests.exceptions.RequestException)] *)
Definition is_RequestException (e : exn) : bool :=
  match e with
  | Exn RequestException _ | Exn HTTPError _ | Exn JSONDecodeError _ => true
  | _ => false
  end.

(** [isinstance(e, Exception)]: everything but [SystemExit]. *)
Definition is_Exception (e : exn) : bool :=
  match e with
  | Exn _ _ => true
  | SystemExit _ => false
  end.

(** [str(e)] *)
Definition exn_text (e : exn) : text :=
  match e with
  | Exn _ msg => msg
  | SystemExit code => [Fmt (JInt code)]
  end.

(** ** The network *)

(** What the decoder makes of a body; [msg] is the decoder's message. *)
Inductive decoded : Type :=
| NotJson (msg : string)         (* not JSON: json.JSONDecodeError *)
| IntegerTooLong (msg : string)  (* an integer beyond the digit limit of int(): ValueError *)
| NestedTooDeep (msg : string)   (* nesting beyond the recursion limit: RecursionError *)
| Json (v : json).

Record response : Type := {
  status_code : Z;
  reason : string;
  url : string;            (* [Response.url], the final URL *)
  body : decoded
}.

Inductive http_outcome : Type :=
| ConnectionFailed (msg : string)  (* [requests.get] raises; no response *)
| Responded (r : response).

Definition world : Type := text -> http_outcome.

(** ** Events and the monad *)

Inductive event : Type :=
| Print (line : text)       (* print(line) *)
| PrintErr (line : text)    (* print(line, file=sys.stderr) *)
| HttpGet (target : text).  (* requests.get(target) *)

Inductive result (A : Type) : Type :=
| Ok (a : A)
| Raise (e : exn).
Arguments Ok {A} a.
Arguments Raise {A} e.

Definition M (A : Type) : Type := world -> list event * result A.

Definition ret {A} (a : A) : M A := fun _ => ([], Ok a).

Definition bind {A B} (m : M A) (k : A -> M B) : M B :=
  fun w =>
    match m w with
    | (l1, Ok a) => let (l2, r) := k a w in ((l1 ++ l2)%list, r)
    | (l1, Raise e) => (l1, Raise e)
    end.

Definition raise {A} (e : exn) : M A := fun _ => ([], Raise e).

Definition emit (ev : event) : M unit := fun _ => ([ev], Ok tt).

(** [print]; the stream takes whatever text it is given (see the header). *)
Definition print (line : text) : M unit := emit (Print line).
Definition print_err (line : text) : M unit := emit (PrintErr line).

(** [try: body except ...: handler]; [handler e] is [None] when no clause
    matches [e], which then propagates. *)
Definition try_except {A} (body : M A) (handler : exn -> option (M A)) : M A :=
  fun w =>
    match body w with
    | (l1, Ok a) => (l1, Ok a)
    | (l1, Raise e) =>
        match handler e with
        | Some h => let (l2, r) := h w in ((l1 ++ l2)%list, r)
        | None => (l1, Raise e)
        end
    end.

Declare Scope py_scope.
Delimit Scope py_scope with py.
Notation "x <- m ;; k" := (bind m (fun x => k))
  (at level 61, m at next level, right associativity) : py_scope.
Notation "m ;; k" := (bind m (fun _ => k))
  (at level 61, right associativity) : py_scope.
Local Open Scope py_scope.

(** [for x in xs: body x] *)
Fixpoint for_each {A} (xs : list A) (body : A -> M unit) : M unit :=
  match xs with
  | [] => ret tt
  | x :: rest => body x ;; for_each rest body
  end.

(** ** The operations of the interpreter the script uses *)

Definition attribute_error (v : json) (attr : string) : exn :=
  Exn AttributeError
      [Lit ("'" ++ type_name v ++ "' object has no attribute '" ++ attr ++ "'")].

(** [v.items()], as the list of pairs the comprehension iterates over. *)
Definition py_items (v : json) : M (list (string * json)) :=
  match v with
  | JObj fields => ret fields
  | _ => raise (attribute_error v "items")
  end.

Definition dict_get_or (fields : list (string * json)) (key : string) (default : json) : json :=
  match dict_get fields key with
  | Some x => x
  | None => default
  end.

(** [v.get(key, default)] *)
Definition py_get (v : json) (key : string) (default : json) : M json :=
  match v with
  | JObj fields => ret (dict_get_or fields key default)
  | _ => raise (attribute_error v "get")
  end.

(** [len(v)] *)
Definition py_len (v : json) : M Z :=
  match v with
  | JStr s => ret (Z.of_nat (str_len s))
  | JArr items => ret (Z.of_nat (List.length items))
  | JObj fields => ret (Z.of_nat (List.length fields))
  | _ => raise (Exn TypeError
                    [Lit ("object of type '" ++ type_name v ++ "' has no len()")])
  end.

(** [v[0]]; the keys of a decoded dict are strings, so [0] is never a key. *)
Definition py_first (v : json) : M json :=
  match v with
  | JArr (x :: _) => ret x
  | JArr [] => raise (Exn IndexError [Lit "list index out of range"])
  | JStr (String c rest) => ret (JStr (String c (take_continuation rest)))
  | JStr EmptyString => raise (Exn IndexError [Lit "string index out of range"])
  | JObj _ => raise (Exn KeyError [Lit "0"])
  | _ => raise (Exn TypeError
                    [Lit ("'" ++ type_name v ++ "' object is not subscriptable")])
  end.

(** ** The [requests] library *)

(** [requests.get(target)] *)
Definition requests_get (target : text) : M response :=
  fun w =>
    match w target with
    | ConnectionFailed msg => ([HttpGet target], Raise (Exn RequestException [Lit msg]))
    | Responded r => ([HttpGet target], Ok r)
    end.

(** [Response.raise_for_status()] *)
Definition raise_for_status (r : response) : M unit :=
  if ((400 <=? status_code r) && (status_code r <? 500))%Z then
    raise (Exn HTTPError [Fmt (JInt (status_code r)); Lit " Client Error: ";
                          Lit (reason r); Lit " for url: "; Lit (url r)])
  else if ((500 <=? status_code r) && (status_code r <? 600))%Z then
    raise (Exn HTTPError [Fmt (JInt (status_code r)); Lit " Server Error: ";
                          Lit (reason r); Lit " for url: "; Lit (url r)])
  else ret tt.

(** [Response.json()]: only the decoder's [JSONDecodeError] is caught and
    raised again as the one of [requests]. *)
Definition response_json (r : response) : M json :=
  match body r with
  | Json v => ret v
  | NotJson msg => raise (Exn JSONDecodeError [Lit msg])
  | IntegerTooLong msg => raise (Exn ValueError [Lit msg])
  | NestedTooDeep msg => raise (Exn RecursionError [Lit msg])
  end.

(** ** class GTNMetadataFetcher *)

Record GTNMetadataFetcher : Type := { base_url : string }.

(** [__init__] *)
Definition new_fetcher : GTNMetadataFetcher :=
  {| base_url := "https://training.galaxyproject.org/training-material/api" |}.

(** The three lines shared by every fetch method. *)
Definition fetch (target : text) : M json :=
  response <- requests_get target ;;
  raise_for_status response ;;
  response_json response.

Definition topics_url (self : GTNMetadataFetcher) : text :=
  [Lit (base_url self); Lit "/topics.json"].
Definition contributors_url (self : GTNMetadataFetcher) : text :=
  [Lit (base_url self); Lit "/contributors.json"].
Definition topic_details_url (self : GTNMetadataFetcher) (topic_id : json) : text :=
  [Lit (base_url self); Lit "/topics/"; Fmt topic_id; Lit ".json"].
Definition tutorial_url (self : GTNMetadataFetcher)
    (topic_id tutorial_id material_type : json) : text :=
  [Lit (base_url self); Lit "/topics/"; Fmt topic_id; Lit "/tutorials/";
   Fmt tutorial_id; Lit "/"; Fmt material_type; Lit ".json"].
Definition top_tools_url (self : GTNMetadataFetcher) : text :=
  [Lit (base_url self); Lit "/top-tools.json"].

Definition fetch_topics (self : GTNMetadataFetcher) : M json :=
  fetch (topics_url self).
Definition fetch_contributors (self : GTNMetadataFetcher) : M json :=
  fetch (contributors_url self).
Definition fetch_topic_details (self : GTNMetadataFetcher) (topic_id : json) : M json :=
  fetch (topic_details_url self topic_id).
Definition fetch_tutorial (self : GTNMetadataFetcher)
    (topic_id tutorial_id material_type : json) : M json :=
  fetch (tutorial_url self topic_id tutorial_id material_type).
Definition fetch_top_tools (self : GTNMetadataFetcher) : M json :=
  fetch (top_tools_url self).

(** ** main *)

Definition sys_exit {A} (code : Z) : M A := raise (SystemExit code).

(** Line 63: [[v for k, v in topics.items()]] *)
Definition normalize_topics (topics : json) : M (list json) :=
  items <- py_items topics ;;
  ret (map snd items).

(** Line 66: the line printed for one of the first five topics. *)
Definition show_topic (topic : json) : M unit :=
  name <- py_get topic "name" (JStr "N/A") ;;
  title <- py_get topic "title" (JStr "N/A") ;;
  print [Lit "  • "; Fmt name; Lit " ("; Fmt title; Lit ")"].

(** Lines 60-68: fetch the topics, turn the dict into the list of its values,
    print the count, the first five entries and the number left out. *)
Definition report_topics (fetcher : GTNMetadataFetcher) : M (list json) :=
  print [Lit (nl ++ "📚 Fetching all topics...")] ;;
  topics <- fetch_topics fetcher ;;
  topics <- normalize_topics topics ;;
  print [Lit "Found "; Fmt (JInt (Z.of_nat (List.length topics))); Lit " topics:"] ;;
  for_each (firstn 5 topics) show_topic ;;
  (if (Z.of_nat (List.length topics) >? 5)%Z
   then print [Lit "  ... and "; Fmt (JInt (Z.of_nat (List.length topics) - 5));
               Lit " more"]
   else ret tt) ;;
  ret topics.

(** Lines 70-73. *)
Definition report_contributors (fetcher : GTNMetadataFetcher) : M unit :=
  print [Lit (nl ++ "👥 Fetching contributors...")] ;;
  contributors <- fetch_contributors fetcher ;;
  n <- py_len contributors ;;
  print [Lit "Found "; Fmt (JInt n); Lit " contributors"].

(** Lines 75-78. *)
Definition report_top_tools (fetcher : GTNMetadataFetcher) : M unit :=
  print [Lit (nl ++ "🔧 Fetching top tools...")] ;;
  top_tools <- fetch_top_tools fetcher ;;
  n <- py_len top_tools ;;
  print [Lit "Found "; Fmt (JInt n); Lit " tools with tutorials"].

(** Lines 92-95: the three lines about the first tutorial. *)
Definition show_first_tutorial (tutorials : json) : M unit :=
  tutorial <- py_first tutorials ;;
  title <- py_get tutorial "title" (JStr "N/A") ;;
  print [Lit "  First tutorial: "; Fmt title] ;;
  duration <- py_get tutorial "time_estimation" (JStr "N/A") ;;
  print [Lit "  Duration: "; Fmt duration] ;;
  hands_on <- py_get tutorial "hands_on" JNull ;;
  print [Lit "  Hands-on: "; Fmt (JStr (if truthy hands_on then "Yes" else "No"))].

(** Lines 85-95: what runs once a truthy [topic_id] is at hand. *)
Definition report_topic_details (fetcher : GTNMetadataFetcher) (topic_id : json) : M unit :=
  print [Lit (nl ++ "🔍 Fetching details for topic: "); Fmt topic_id] ;;
  topic_details <- fetch_topic_details fetcher topic_id ;;
  tutorials <- py_get topic_details "materials" (JArr []) ;;
  n <- py_len tutorials ;;
  print [Lit "  Topic has "; Fmt (JInt n); Lit " tutorials"] ;;
  if truthy tutorials then show_first_tutorial tutorials else ret tt.

(** Lines 81-95. *)
Definition report_first_topic (fetcher : GTNMetadataFetcher) (topics : list json) : M unit :=
  match topics with
  | [] => ret tt
  | first_topic :: _ =>
      topic_id <- py_get first_topic "name" JNull ;;
      if truthy topic_id then report_topic_details fetcher topic_id else ret tt
  end.

Definition success_line : text :=
  [Lit (nl ++ "✅ Successfully fetched GTN metadata!")].

(** Lines 57-98: the body of the [try]. *)
Definition main_body (fetcher : GTNMetadataFetcher) : M unit :=
  print [Lit "Fetching Galaxy Training Network metadata..."] ;;
  print [Lit (str_repeat "=" 50)] ;;
  topics <- report_topics fetcher ;;
  report_contributors fetcher ;;
  report_top_tools fetcher ;;
  report_first_topic fetcher topics ;;
  print success_line ;;
  print [Lit (nl ++ "To save data to files, modify the script to write JSON output.")].

Definition fetch_error_line (e : exn) : text :=
  Lit "❌ Error fetching data: " :: exn_text e.
Definition unexpected_error_line (e : exn) : text :=
  Lit "❌ Unexpected error: " :: exn_text e.

(** Lines 100-105: the two [except] clauses, tried in order. *)
Definition handlers (e : exn) : option (M unit) :=
  if is_RequestException e then
    Some (print_err (fetch_error_line e) ;; sys_exit 1)
  else if is_Exception e then
    Some (print_err (unexpected_error_line e) ;; sys_exit 1)
  else None.

Definition main : M unit :=
  let fetcher := new_fetcher in
  try_except (main_body fetcher) handlers.

(** ** A run of the script *)

Record outcome : Type := {
  events : list event;   (* everything observable, in program order *)
  exit_status : Z
}.

Definition printed (log : list event) : list text :=
  flat_map (fun ev => match ev with Print l => [l] | _ => [] end) log.
Definition printed_err (log : list event) : list text :=
  flat_map (fun ev => match ev with PrintErr l => [l] | _ => [] end) log.
Definition requested (log : list event) : list text :=
  flat_map (fun ev => match ev with HttpGet u => [u] | _ => [] end) log.

Definition stdout (o : outcome) : list text := printed (events o).
Definition stderr (o : outcome) : list text := printed_err (events o).
Definition requests (o : outcome) : list text := requested (events o).

(** The status the interpreter exits with: 0 when the script runs to its
    end, the argument of [sys.exit], 1 for an exception nobody caught. *)
Definition status_of (r : result unit) : Z :=
  match r with
  | Ok _ => 0
  | Raise (SystemExit code) => code
  | Raise (Exn _ _) => 1
  end.

(** [if __name__ == "__main__": main()] *)
Definition run_script (w : world) : outcome :=
  let (log, r) := main w in
  {| events := log; exit_status := status_of r |}.

(** ** Worlds for the examples *)

Definition ok_json (v : json) : http_outcome :=
  Responded {| status_code := 200; reason := "OK"; url := ""; body := Json v |}.

(** A server answering the four URLs of the script; anything else does not
    connect. *)
Definition serve (topics contributors top_tools : http_outcome)
    (details : json -> http_outcome) : world :=
  fun target =>
    match target with
    | [Lit _; Lit path] =>
        if path =? "/topics.json" then topics
        else if path =? "/contributors.json" then contributors
        else if path =? "/top-tools.json" then top_tools
        else ConnectionFailed "unknown host"
    | [Lit _; Lit _; Fmt topic_id; Lit _] => details topic_id
    | _ => ConnectionFailed "unknown host"
    end.

Definition topic_fields (name title : string) : list (string * json) :=
  [("name", JStr name); ("title", JStr title)].

Definition topic (name title : string) : string * json :=
  (name, JObj (topic_fields name title)).

Definition two_fields : list (string * json) :=
  [topic "a" "Alpha"; topic "b" "Beta"].

Definition seven_fields : list (string * json) :=
  [topic "a" "Alpha"; topic "b" "Beta"; topic "c" "Gamma"; topic "d" "Delta";
   topic "e" "Epsilon"; topic "f" "Zeta"; topic "g" "Eta"].

Definition sample_details : json :=
  JObj [("materials", JArr [JObj [("title", JStr "Intro"); ("hands_on", JBool true)]])].

Definition empty_index : http_outcome := ok_json (JObj []).

Definition sample_response : response :=
  {| status_code := 200; reason := "OK"; url := ""; body := Json (JObj seven_fields) |}.

(** Seven topics, every endpoint answering. *)
Definition sample_world : world :=
  serve (Responded sample_response) (ok_json (JObj [("x", JNull)])) empty_index
        (fun _ => ok_json sample_details).

Definition two_topics_world : world :=
  serve (ok_json (JObj two_fields)) empty_index empty_index (fun _ => ok_json (JObj [])).

Definition no_topics_response : response :=
  {| status_code := 200; reason := "OK"; url := ""; body := Json (JObj []) |}.

Definition no_topics_world : world :=
  serve (Responded no_topics_response) empty_index empty_index (fun _ => empty_index).



(** The topics endpoint answers 300 Multiple Choices with a JSON body. *)
Definition multiple_choices : response :=
  {| status_code := 300; reason := "Multiple Choices"; url := ""; body := Json (JObj []) |}.

Definition multiple_choices_world : world :=
  serve (Responded multiple_choices) empty_index empty_index (fun _ => empty_index).

(** The contributors endpoint answers 404. *)
Definition not_found : response :=
  {| status_code := 404; reason := "Not Found";
     url := "https://training.galaxyproject.org/training-material/api/contributors.json";
     body := NotJson "Expecting value: line 1 column 1 (char 0)" |}.

Definition not_found_world : world :=
  serve (ok_json (JObj two_fields)) (Responded not_found) empty_index
        (fun _ => empty_index).



(** The topics endpoint answers 200 with a page that is not JSON. *)
Definition html_page : response :=
  {| status_code := 200; reason := "OK"; url := "";
     body := NotJson "Expecting value: line 1 column 1 (char 0)" |}.

Definition html_world : world :=
  serve (Responded html_page) empty_index empty_index (fun _ => empty_index).

(** The topics endpoint answers with a JSON array. *)
Definition array_response : response :=
  {| status_code := 200; reason := "OK"; url := ""; body := Json (JArr []) |}.

Definition array_world : world :=
  serve (Responded array_response) empty_index empty_index (fun _ => empty_index).

(** One topic whose [name] is the empty string. *)
Definition unnamed_fields : list (string * json) :=
  [("name", JStr ""); ("title", JStr "Alpha")].

Definition unnamed_world : world :=
  serve (ok_json (JObj [("a", JObj unnamed_fields)])) empty_index empty_index
        (fun _ => ok_json sample_details).

Definition render_all (ts : list text) : list (option string) := map render ts.

Definition ok_response (v : json) : response :=
  {| status_code := 200; reason := "OK"; url := ""; body := Json v |}.

(** Two topics, and the given answer for the details of any topic. *)
Definition details_world (details : json) : world :=
  serve (ok_json (JObj two_fields)) empty_index empty_index
        (fun _ => Responded (ok_response details)).

(** The contributors endpoint does not answer. *)
Definition offline_world : world :=
  serve (ok_json (JObj two_fields)) (ConnectionFailed "Connection refused")
        empty_index (fun _ => empty_index).

(** The contributors and the top tools come as a list and as null. *)
Definition odd_counts_world : world :=
  serve (ok_json (JObj two_fields)) (Responded (ok_response (JArr [JNull; JNull; JNull])))
        (Responded (ok_response JNull)) (fun _ => empty_index).

(** The second topic is a string. *)
Definition bad_entry_fields : list (string * json) :=
  [topic "a" "Alpha"; ("b", JStr "oops"); topic "c" "Gamma"].

Definition bad_entry_world : world :=
  serve (Responded (ok_response (JObj bad_entry_fields))) empty_index empty_index
        (fun _ => empty_index).

(** ** Vocabulary of the statements *)

(** The statuses [raise_for_status] raises for. *)
Definition error_status (r : response) : Prop :=
  (400 <= status_code r < 600)%Z.

(** Line 61. *)
Definition topics_announcement : text := [Lit (nl ++ "📚 Fetching all topics...")].

(** The text of line 66 for a topic that is a dict. *)
Definition topic_line (fields : list (string * json)) : text :=
  [Lit "  • "; Fmt (dict_get_or fields "name" (JStr "N/A")); Lit " (";
   Fmt (dict_get_or fields "title" (JStr "N/A")); Lit ")"].

(** Lines 57-58. *)
Definition banner : list event :=
  [Print [Lit "Fetching Galaxy Training Network metadata..."];
   Print [Lit (str_repeat "=" 50)]].

(** Lines 97-98. *)
Definition closing : list event :=
  [Print success_line;
   Print [Lit (nl ++ "To save data to files, modify the script to write JSON output.")]].

(** The guard of lines 81-84, as a function of the normalized topics: the
    identifier the details are fetched for, if any. *)
Definition first_topic_id (topics : list json) : option json :=
  match topics with
  | JObj fields :: _ =>
      match dict_get fields "name" with
      | Some topic_id => if truthy topic_id then Some topic_id else None
      | None => None
      end
  | _ => None
  end.

(** The requests of a full run, in program order. *)
Definition request_plan (f : GTNMetadataFetcher) (topic_id : json) : list text :=
  [topics_url f; contributors_url f; top_tools_url f; topic_details_url f topic_id].

(** A program that makes no request. *)
Definition quiet (A : Type) (m : M A) : Prop :=
  forall w, requested (fst (m w)) = [].

(** The body of the [try] raises ordinary exceptions only. *)
Definition raises_Exception (A : Type) (m : M A) : Prop :=
  forall w l e, m w = (l, Raise e) -> is_Exception e = true.

(** A fetch that fails ends the body of the [try] on the spot. *)
Definition stops_at_failure (A : Type) (m : M A) : Prop :=
  forall w target e,
    In (HttpGet target) (fst (m w)) ->
    snd (fetch target w) = Raise e ->
    exists before, m w = ((before ++ [HttpGet target])%list, Raise e).



(** The server answers [target] with a status outside 400..599 and a body
    that decodes to [v]. *)
Definition answers (w : world) (target : text) (v : json) : Prop :=
  exists r, w target = Responded r /\ ~ error_status r /\ body r = Json v.

(** The word [raise_for_status] puts in its message. *)
Definition status_kind (r : response) : string :=
  if (status_code r <? 500)%Z then " Client Error: " else " Server Error: ".

(** The values [len()] refuses. *)
Definition unsized (v : json) : Prop :=
  match v with
  | JNull | JBool _ | JInt _ | JFloat _ => True
  | JStr _ | JArr _ | JObj _ => False
  end.

(** Lines 71 and 76. *)
Definition contributors_announcement : text := [Lit (nl ++ "👥 Fetching contributors...")].
Definition top_tools_announcement : text := [Lit (nl ++ "🔧 Fetching top tools...")].

(** Lines 85 and 88. *)
Definition details_announcement (topic_id : json) : text :=
  [Lit (nl ++ "🔍 Fetching details for topic: "); Fmt topic_id].
Definition tutorial_count_line (n : Z) : text :=
  [Lit "  Topic has "; Fmt (JInt n); Lit " tutorials"].

(** Tutorials that lines 88-95 go through without raising: [len] takes
    them and, when they are not empty, they are a list whose first element
    is a mapping. *)
Definition well_shaped_tutorials (tutorials : json) : Prop :=
  ~ unsized tutorials
  /\ (truthy tutorials = true ->
      exists tutorial others, tutorials = JArr (JObj tutorial :: others)).

(** A program that writes nothing to the error stream. *)
Definition silent_on_stderr (A : Type) (m : M A) : Prop :=
  forall w, printed_err (fst (m w)) = [].

(** A program that does not print the success line. *)
Definition never_succeeds (A : Type) (m : M A) : Prop :=
  forall w, ~ In (Print success_line) (fst (m w)).

(** A program that does not raise [IndexError]. *)
Definition never_IndexError (A : Type) (m : M A) : Prop :=
  forall w l msg, m w <> (l, Raise (Exn IndexError msg)).

(** * Properties *)

(** ** Running [bind] and [try_except] *)

Lemma bind_Ok {A B} (m : M A) (k : A -> M B) (w : world) l1 a :
  m w = (l1, Ok a) ->
  bind m k w = ((l1 ++ fst (k a w))%list, snd (k a w)).
Proof.
  intros Hm. unfold bind. rewrite Hm. now destruct (k a w).
Qed.

Lemma bind_Raise {A B} (m : M A) (k : A -> M B) (w : world) l1 e :
  m w = (l1, Raise e) -> bind m k w = (l1, Raise e).
Proof.
  intros Hm. unfold bind. now rewrite Hm.
Qed.

Lemma bind_inv {A B} (m : M A) (k : A -> M B) (w : world) l r :
  bind m k w = (l, r) ->
  (exists l1 a l2, m w = (l1, Ok a) /\ k a w = (l2, r) /\ l = (l1 ++ l2)%list)
  \/ (exists e, m w = (l, Raise e) /\ r = Raise e).
Proof.
  unfold bind. destruct (m w) as [l1 [a | e]].
  - destruct (k a w) as [l2 r2] eqn:Hk. intros [= <- <-].
    left. now exists l1, a, l2.
  - intros [= <- <-]. right. now exists e.
Qed.

Lemma requested_app (l1 l2 : list event) :
  requested (l1 ++ l2) = (requested l1 ++ requested l2)%list.
Proof. apply flat_map_app. Qed.

Lemma printed_app (l1 l2 : list event) :
  printed (l1 ++ l2) = (printed l1 ++ printed l2)%list.
Proof. apply flat_map_app. Qed.

Lemma printed_err_app (l1 l2 : list event) :
  printed_err (l1 ++ l2) = (printed_err l1 ++ printed_err l2)%list.
Proof. apply flat_map_app. Qed.

Lemma in_requested (l : list event) (u : text) :
  In u (requested l) <-> In (HttpGet u) l.
Proof.
  unfold requested. rewrite in_flat_map. split.
  - intros [ev [Hin Hu]]. destruct ev; simpl in Hu; try contradiction.
    destruct Hu as [-> | []]. exact Hin.
  - intros Hin. exists (HttpGet u). split; [exact Hin | now left].
Qed.

(** ** What a fetch does *)

Lemma raise_for_status_passes (r : response) (w : world) :
  ~ error_status r -> raise_for_status r w = ([], Ok tt).
Proof.
  unfold error_status, raise_for_status. intros H.
  destruct (400 <=? status_code r)%Z eqn:E1, (status_code r <? 500)%Z eqn:E2,
           (500 <=? status_code r)%Z eqn:E3, (status_code r <? 600)%Z eqn:E4;
    simpl; try reflexivity; exfalso; apply H; lia.
Qed.

Lemma raise_for_status_raises (r : response) (w : world) :
  error_status r ->
  exists kind,
    (kind = " Client Error: " \/ kind = " Server Error: ") /\
    raise_for_status r w =
      ([], Raise (Exn HTTPError [Fmt (JInt (status_code r)); Lit kind;
                                 Lit (reason r); Lit " for url: "; Lit (url r)])).
Proof.
  unfold error_status, raise_for_status. intros H.
  destruct (400 <=? status_code r)%Z eqn:E1, (status_code r <? 500)%Z eqn:E2;
    simpl; try (eexists; split; [left; reflexivity | reflexivity]);
    destruct (500 <=? status_code r)%Z eqn:E3, (status_code r <? 600)%Z eqn:E4;
    simpl; try (eexists; split; [right; reflexivity | reflexivity]); lia.
Qed.

Lemma raise_for_status_log (r : response) (w : world) :
  fst (raise_for_status r w) = [].
Proof.
  unfold raise_for_status.
  destruct ((400 <=? status_code r) && (status_code r <? 500))%Z; [reflexivity |].
  destruct ((500 <=? status_code r) && (status_code r <? 600))%Z; reflexivity.
Qed.

Lemma fetch_log (target : text) (w : world) :
  fst (fetch target w) = [HttpGet target].
Proof.
  unfold fetch, bind, requests_get. destruct (w target) as [msg | r]; [reflexivity |].
  pose proof (raise_for_status_log r w) as Hl.
  destruct (raise_for_status r w) as [l [[] | e]]; simpl in Hl; subst l.
  - unfold response_json. destruct (body r); reflexivity.
  - reflexivity.
Qed.

Lemma fetch_run (target : text) (w : world) :
  fetch target w = ([HttpGet target], snd (fetch target w)).
Proof.
  rewrite <- (fetch_log target w). now destruct (fetch target w).
Qed.

Lemma fetch_connection_failed (target : text) (w : world) msg :
  w target = ConnectionFailed msg ->
  fetch target w = ([HttpGet target], Raise (Exn RequestException [Lit msg])).
Proof.
  intros Hw. unfold fetch, bind, requests_get. now rewrite Hw.
Qed.

Lemma fetch_error_status (target : text) (w : world) r :
  w target = Responded r -> error_status r ->
  exists msg, fetch target w = ([HttpGet target], Raise (Exn HTTPError msg)).
Proof.
  intros Hw Hs. destruct (raise_for_status_raises r w Hs) as [kind [_ Hr]].
  eexists. unfold fetch, bind, requests_get. rewrite Hw, Hr. reflexivity.
Qed.

Lemma fetch_not_json (target : text) (w : world) r msg :
  w target = Responded r -> ~ error_status r -> body r = NotJson msg ->
  fetch target w = ([HttpGet target], Raise (Exn JSONDecodeError [Lit msg])).
Proof.
  intros Hw Hs Hb. unfold fetch, bind, requests_get.
  rewrite Hw, (raise_for_status_passes r w Hs). unfold response_json.
  now rewrite Hb.
Qed.

Lemma fetch_json (target : text) (w : world) r v :
  w target = Responded r -> ~ error_status r -> body r = Json v ->
  fetch target w = ([HttpGet target], Ok v).
Proof.
  intros Hw Hs Hb. unfold fetch, bind, requests_get.
  rewrite Hw, (raise_for_status_passes r w Hs). unfold response_json.
  now rewrite Hb.
Qed.

Lemma error_status_dec (r : response) : {error_status r} + {~ error_status r}.
Proof.
  unfold error_status.
  destruct (Z_le_dec 400 (status_code r)); [ | right; lia].
  destruct (Z_lt_dec (status_code r) 600); [left | right]; lia.
Qed.

Lemma raise_for_status_error (r : response) (w : world) :
  error_status r ->
  raise_for_status r w =
  ([], Raise (Exn HTTPError [Fmt (JInt (status_code r)); Lit (status_kind r);
                             Lit (reason r); Lit " for url: "; Lit (url r)])).
Proof.
  unfold error_status, raise_for_status, status_kind. intros H.
  destruct (400 <=? status_code r)%Z eqn:E1; [ | lia].
  destruct (status_code r <? 500)%Z eqn:E2; simpl; [reflexivity | ].
  destruct (500 <=? status_code r)%Z eqn:E3; [ | lia].
  destruct (status_code r <? 600)%Z eqn:E4; [reflexivity | lia].
Qed.

Lemma fetch_http_error (target : text) (w : world) r :
  w target = Responded r -> error_status r ->
  fetch target w =
  ([HttpGet target],
   Raise (Exn HTTPError [Fmt (JInt (status_code r)); Lit (status_kind r);
                         Lit (reason r); Lit " for url: "; Lit (url r)])).
Proof.
  intros Hw Hs. unfold fetch, bind, requests_get.
  now rewrite Hw, (raise_for_status_error r w Hs).
Qed.

Lemma fetch_integer_too_long (target : text) (w : world) r msg :
  w target = Responded r -> ~ error_status r -> body r = IntegerTooLong msg ->
  fetch target w = ([HttpGet target], Raise (Exn ValueError [Lit msg])).
Proof.
  intros Hw Hs Hb. unfold fetch, bind, requests_get.
  rewrite Hw, (raise_for_status_passes r w Hs). unfold response_json.
  now rewrite Hb.
Qed.

Lemma fetch_nested_too_deep (target : text) (w : world) r msg :
  w target = Responded r -> ~ error_status r -> body r = NestedTooDeep msg ->
  fetch target w = ([HttpGet target], Raise (Exn RecursionError [Lit msg])).
Proof.
  intros Hw Hs Hb. unfold fetch, bind, requests_get.
  rewrite Hw, (raise_for_status_passes r w Hs). unfold response_json.
  now rewrite Hb.
Qed.

(** The outcomes of a fetch: a value, one of the exceptions of [requests],
    or a failure of the decoder that [requests] lets through. *)
Lemma fetch_cases (target : text) (w : world) :
  (exists v r, w target = Responded r /\ ~ error_status r /\ body r = Json v
               /\ snd (fetch target w) = Ok v)
  \/ (exists cls msg, snd (fetch target w) = Raise (Exn cls msg)
                      /\ is_RequestException (Exn cls msg) = true)
  \/ (exists r cls msg,
         w target = Responded r /\ ~ error_status r
         /\ (body r = IntegerTooLong msg /\ cls = ValueError
             \/ body r = NestedTooDeep msg /\ cls = RecursionError)
         /\ snd (fetch target w) = Raise (Exn cls [Lit msg])).
Proof.
  destruct (w target) as [msg | r] eqn:Hw.
  - right. left. rewrite (fetch_connection_failed _ _ _ Hw). now eexists _, _.
  - destruct (error_status_dec r) as [Hs | Hs].
    + right. left. rewrite (fetch_http_error _ _ _ Hw Hs). now eexists _, _.
    + destruct (body r) as [msg | msg | msg | v] eqn:Hb.
      * right. left. rewrite (fetch_not_json _ _ _ _ Hw Hs Hb). now eexists _, _.
      * right. right. exists r, ValueError, msg.
        rewrite (fetch_integer_too_long _ _ _ _ Hw Hs Hb). auto 6.
      * right. right. exists r, RecursionError, msg.
        rewrite (fetch_nested_too_deep _ _ _ _ Hw Hs Hb). auto 6.
      * left. exists v, r. rewrite (fetch_json _ _ _ _ Hw Hs Hb). auto.
Qed.

(** ** Structural induction on the script

    [main_body] is built from [ret], [raise] of an ordinary exception,
    [print], [fetch] and [bind]; a property of programs that holds of these
    and is preserved by [bind] holds of [main_body]. *)

Section Structural.

Variable P : forall A : Type, M A -> Prop.

Hypothesis P_ret : forall (A : Type) (a : A), P A (ret a).
Hypothesis P_raise : forall (A : Type) cls msg, P A (raise (Exn cls msg)).
Hypothesis P_print : forall line, P unit (print line).
Hypothesis P_fetch : forall target, P json (fetch target).
Hypothesis P_bind : forall (A B : Type) (m : M A) (k : A -> M B),
    P A m -> (forall a, P B (k a)) -> P B (bind m k).

Ltac structural :=
  repeat first
    [ apply P_ret | apply P_raise | apply P_print | apply P_fetch
    | apply P_bind | intro ].

Lemma structural_py_items v : P _ (py_items v).
Proof. destruct v; simpl; unfold attribute_error; structural. Qed.

Lemma structural_py_get v key default : P _ (py_get v key default).
Proof. destruct v; simpl; unfold attribute_error; structural. Qed.

Lemma structural_py_len v : P _ (py_len v).
Proof. destruct v; simpl; structural. Qed.

Lemma structural_py_first v : P _ (py_first v).
Proof.
  destruct v as [ | b | n | f | [ | c s] | [ | x items] | fields];
    simpl; structural.
Qed.

Lemma structural_for_each (A : Type) (xs : list A) (body : A -> M unit) :
  (forall x, P _ (body x)) -> P _ (for_each xs body).
Proof.
  intros Hbody. induction xs as [ | x rest IH]; simpl; structural; auto.
Qed.

Lemma structural_normalize_topics topics : P _ (normalize_topics topics).
Proof.
  unfold normalize_topics. apply P_bind; [apply structural_py_items | structural].
Qed.

Lemma structural_show_topic topic : P _ (show_topic topic).
Proof.
  unfold show_topic.
  repeat (apply P_bind; [apply structural_py_get | intro]). structural.
Qed.

Lemma structural_report_topics f : P _ (report_topics f).
Proof.
  unfold report_topics, fetch_topics.
  apply P_bind; [structural | intros _].
  apply P_bind; [structural | intros topics].
  apply P_bind; [apply structural_normalize_topics | intros values].
  apply P_bind; [structural | intros _].
  apply P_bind; [apply structural_for_each, structural_show_topic | intros _].
  apply P_bind; [ | structural].
  destruct (Z.of_nat (List.length values) >? 5)%Z; structural.
Qed.

Lemma structural_report_contributors f : P _ (report_contributors f).
Proof.
  unfold report_contributors, fetch_contributors.
  apply P_bind; [structural | intros _].
  apply P_bind; [structural | intros contributors].
  apply P_bind; [apply structural_py_len | structural].
Qed.

Lemma structural_report_top_tools f : P _ (report_top_tools f).
Proof.
  unfold report_top_tools, fetch_top_tools.
  apply P_bind; [structural | intros _].
  apply P_bind; [structural | intros top_tools].
  apply P_bind; [apply structural_py_len | structural].
Qed.

Lemma structural_show_first_tutorial tutorials :
  P _ (show_first_tutorial tutorials).
Proof.
  unfold show_first_tutorial.
  apply P_bind; [apply structural_py_first | intros tutorial].
  repeat (apply P_bind; [apply structural_py_get | intro];
          try (apply P_bind; [structural | intro])).
  structural.
Qed.

Lemma structural_report_topic_details f topic_id :
  P _ (report_topic_details f topic_id).
Proof.
  unfold report_topic_details, fetch_topic_details.
  apply P_bind; [structural | intros _].
  apply P_bind; [structural | intros topic_details].
  apply P_bind; [apply structural_py_get | intros tutorials].
  apply P_bind; [apply structural_py_len | intros n].
  apply P_bind; [structural | intros _].
  destruct (truthy tutorials);
    [apply structural_show_first_tutorial | structural].
Qed.

Lemma structural_report_first_topic f topics :
  P _ (report_first_topic f topics).
Proof.
  unfold report_first_topic. destruct topics as [ | first_topic rest];
    [structural |].
  apply P_bind; [apply structural_py_get | intros topic_id].
  destruct (truthy topic_id);
    [apply structural_report_topic_details | structural].
Qed.

Lemma structural_main_body f : P _ (main_body f).
Proof.
  unfold main_body.
  apply P_bind; [structural | intros _].
  apply P_bind; [structural | intros _].
  apply P_bind; [apply structural_report_topics | intros topics].
  apply P_bind; [apply structural_report_contributors | intros _].
  apply P_bind; [apply structural_report_top_tools | intros _].
  apply P_bind; [apply structural_report_first_topic | intros _].
  structural.
Qed.

End Structural.

(** ** Three structural properties *)

Lemma main_body_raises_Exception f : raises_Exception _ (main_body f).
Proof.
  apply structural_main_body; unfold raises_Exception.
  - intros A a w l e [=].
  - intros A cls msg w l e [= _ <-]. reflexivity.
  - intros line w l e [=].
  - intros target w l e Hf.
    destruct (fetch_cases target w)
      as [[v [r [_ [_ [_ Hv]]]]] | [[cls [msg [Hr _]]] | [r [cls [msg [_ [_ [_ Hr]]]]]]]];
      rewrite Hf in *; simpl in *;
      [discriminate | now injection Hr as -> | now injection Hr as ->].
  - intros A B m k Hm Hk w l e Hb.
    apply bind_inv in Hb as [[l1 [a [l2 [_ [Hka _]]]]] | [e' [Hme [= <-]]]]; eauto.
Qed.

Lemma main_body_stops_at_failure f : stops_at_failure _ (main_body f).
Proof.
  apply structural_main_body; unfold stops_at_failure.
  - intros A a w target e [].
  - intros A cls msg w target e [].
  - intros line w target e [[=] | []].
  - intros t w target e Hin Hf. rewrite fetch_log in Hin.
    destruct Hin as [[= <-] | []]. exists []. rewrite fetch_run, Hf. reflexivity.
  - intros A B m k Hm Hk w target e Hin Hf. unfold bind in *.
    destruct (m w) as [l1 [a | e1]] eqn:Em.
    + destruct (k a w) as [l2 r2] eqn:Ek. simpl in Hin.
      apply in_app_or in Hin as [Hin | Hin].
      * destruct (Hm w target e) as [before Hb]; [now rewrite Em | exact Hf | ].
        rewrite Em in Hb. discriminate.
      * destruct (Hk a w target e) as [before Hb]; [now rewrite Ek | exact Hf | ].
        rewrite Ek in Hb. injection Hb as -> ->.
        exists (l1 ++ before)%list. now rewrite app_assoc.
    + destruct (Hm w target e) as [before Hb]; [now rewrite Em | exact Hf | ].
      rewrite Em in Hb. injection Hb as -> ->. now exists before.
Qed.




Lemma main_body_silent_on_stderr f : silent_on_stderr _ (main_body f).
Proof.
  apply structural_main_body; unfold silent_on_stderr.
  - reflexivity.
  - reflexivity.
  - reflexivity.
  - intros target w. now rewrite fetch_log.
  - intros A B m k Hm Hk w. unfold bind.
    specialize (Hm w). destruct (m w) as [l1 [a | e]]; [ | exact Hm].
    specialize (Hk a w). destruct (k a w) as [l2 r]. simpl in *.
    now rewrite printed_err_app, Hm, Hk.
Qed.

(** ** The try/except of [main] *)

Lemma run_script_returns (w : world) l :
  main_body new_fetcher w = (l, Ok tt) ->
  run_script w = {| events := l; exit_status := 0 |}.
Proof.
  intros Hb. unfold run_script, main, try_except. now rewrite Hb.
Qed.

Lemma run_script_caught (w : world) l e :
  main_body new_fetcher w = (l, Raise e) ->
  run_script w =
    {| events := (l ++ [PrintErr (if is_RequestException e
                                  then fetch_error_line e
                                  else unexpected_error_line e)])%list;
       exit_status := 1 |}.
Proof.
  intros Hb. pose proof (main_body_raises_Exception _ _ _ _ Hb) as He.
  unfold run_script, main, try_except, handlers. rewrite Hb, He.
  destruct (is_RequestException e); reflexivity.
Qed.

(** ** Which requests each part makes *)

Lemma quiet_ret (A : Type) (a : A) : quiet _ (ret a).
Proof. intros w. reflexivity. Qed.

Lemma quiet_raise (A : Type) cls msg : quiet A (raise (Exn cls msg)).
Proof. intros w. reflexivity. Qed.

Lemma quiet_print line : quiet _ (print line).
Proof. intros w. reflexivity. Qed.

Lemma requested_bind {A B} (m : M A) (k : A -> M B) (w : world) :
  requested (fst (bind m k w)) =
  (requested (fst (m w)) ++
   match snd (m w) with
   | Ok a => requested (fst (k a w))
   | Raise _ => []
   end)%list.
Proof.
  unfold bind. destruct (m w) as [l1 [a | e]]; simpl.
  - destruct (k a w) as [l2 r]. simpl. apply requested_app.
  - now rewrite app_nil_r.
Qed.

Lemma quiet_bind (A B : Type) (m : M A) (k : A -> M B) :
  quiet _ m -> (forall a, quiet _ (k a)) -> quiet _ (bind m k).
Proof.
  intros Hm Hk w. rewrite requested_bind, Hm.
  destruct (snd (m w)); [apply Hk | reflexivity].
Qed.

Create HintDb quiet.
#[local] Hint Resolve quiet_ret quiet_raise quiet_print quiet_bind : quiet.

Lemma quiet_py_get v key default : quiet _ (py_get v key default).
Proof. apply structural_py_get; auto with quiet. Qed.

Lemma quiet_py_len v : quiet _ (py_len v).
Proof. apply structural_py_len; auto with quiet. Qed.

Lemma quiet_normalize_topics topics : quiet _ (normalize_topics topics).
Proof. apply structural_normalize_topics; auto with quiet. Qed.

Lemma quiet_show_topics topics : quiet _ (for_each topics show_topic).
Proof.
  apply structural_for_each; auto with quiet.
  intros x. apply structural_show_topic; auto with quiet.
Qed.

Lemma quiet_show_first_tutorial tutorials : quiet _ (show_first_tutorial tutorials).
Proof. apply structural_show_first_tutorial; auto with quiet. Qed.

#[local] Hint Resolve quiet_py_get quiet_py_len quiet_normalize_topics
  quiet_show_topics quiet_show_first_tutorial : quiet.

(** The shape of each part: an announcement, one fetch, then no request. *)
Lemma announced_fetch_requests {A} line target (k : json -> M A) (w : world) :
  (forall v, quiet _ (k v)) ->
  requested (fst ((print line ;; v <- fetch target ;; k v) w)) = [target].
Proof.
  intros Hk. rewrite requested_bind, quiet_print. simpl.
  rewrite requested_bind, fetch_log. simpl.
  destruct (snd (fetch target w)); [now rewrite Hk | reflexivity].
Qed.

Lemma report_topics_requests f w :
  requested (fst (report_topics f w)) = [topics_url f].
Proof.
  apply announced_fetch_requests. intros v.
  repeat (apply quiet_bind; [auto with quiet | intro]); auto with quiet.
  destruct (_ >? _)%Z; auto with quiet.
Qed.

Lemma report_contributors_requests f w :
  requested (fst (report_contributors f w)) = [contributors_url f].
Proof.
  apply announced_fetch_requests. intros v.
  repeat (apply quiet_bind; [auto with quiet | intro]); auto with quiet.
Qed.

Lemma report_top_tools_requests f w :
  requested (fst (report_top_tools f w)) = [top_tools_url f].
Proof.
  apply announced_fetch_requests. intros v.
  repeat (apply quiet_bind; [auto with quiet | intro]); auto with quiet.
Qed.

Lemma report_topic_details_requests f topic_id w :
  requested (fst (report_topic_details f topic_id w)) = [topic_details_url f topic_id].
Proof.
  apply announced_fetch_requests. intros v.
  repeat (apply quiet_bind; [auto with quiet | intro]); auto with quiet.
  destruct (truthy _); auto with quiet.
Qed.

Lemma report_first_topic_requests f topics w :
  requested (fst (report_first_topic f topics w)) =
  match first_topic_id topics with
  | Some topic_id => [topic_details_url f topic_id]
  | None => []
  end.
Proof.
  destruct topics as [ | first_topic rest]; [reflexivity |].
  destruct first_topic; try reflexivity.
  unfold report_first_topic, first_topic_id. rewrite requested_bind. simpl.
  unfold dict_get_or. destruct (dict_get fields "name") as [topic_id | ]; [ | reflexivity].
  destruct (truthy topic_id); [apply report_topic_details_requests | reflexivity].
Qed.

(** ** The body of the [try], part by part *)

Lemma main_body_unfold f w :
  main_body f w =
  let (l1, r1) := report_topics f w in
  match r1 with
  | Raise e => ((banner ++ l1)%list, Raise e)
  | Ok topics =>
    let (l2, r2) := report_contributors f w in
    match r2 with
    | Raise e => ((banner ++ l1 ++ l2)%list, Raise e)
    | Ok _ =>
      let (l3, r3) := report_top_tools f w in
      match r3 with
      | Raise e => ((banner ++ l1 ++ l2 ++ l3)%list, Raise e)
      | Ok _ =>
        let (l4, r4) := report_first_topic f topics w in
        match r4 with
        | Raise e => ((banner ++ l1 ++ l2 ++ l3 ++ l4)%list, Raise e)
        | Ok _ => ((banner ++ l1 ++ l2 ++ l3 ++ l4 ++ closing)%list, Ok tt)
        end
      end
    end
  end.
Proof.
  unfold main_body, bind, print, emit, banner, closing.
  destruct (report_topics f w) as [l1 [topics | e]]; [ | reflexivity].
  destruct (report_contributors f w) as [l2 [[] | e]]; [ | reflexivity].
  destruct (report_top_tools f w) as [l3 [[] | e]]; [ | reflexivity].
  destruct (report_first_topic f topics w) as [l4 [[] | e]]; reflexivity.
Qed.

(** ** Step 1: the topics *)

Lemma show_topics_run (heads : list (list (string * json))) (w : world) :
  for_each (map JObj heads) show_topic w =
  (map (fun fields => Print (topic_line fields)) heads, Ok tt).
Proof.
  induction heads as [ | fields rest IH]; [reflexivity |].
  simpl. unfold bind at 1. unfold show_topic at 1, py_get, bind, ret, print, emit.
  simpl. now rewrite IH.
Qed.

Lemma report_topics_not_dict f w r v :
  w (topics_url f) = Responded r -> ~ error_status r -> body r = Json v ->
  (forall fields, v <> JObj fields) ->
  report_topics f w =
  ([Print topics_announcement; HttpGet (topics_url f)],
   Raise (attribute_error v "items")).
Proof.
  intros Hw Hs Hb Hv. unfold report_topics, fetch_topics, bind, print, emit.
  rewrite (fetch_json _ _ _ _ Hw Hs Hb).
  destruct v; try reflexivity. now elim (Hv fields).
Qed.

Lemma report_topics_dict f w r fields heads :
  w (topics_url f) = Responded r -> ~ error_status r ->
  body r = Json (JObj fields) ->
  firstn 5 (map snd fields) = map JObj heads ->
  report_topics f w =
  ((([Print topics_announcement; HttpGet (topics_url f);
      Print [Lit "Found "; Fmt (JInt (Z.of_nat (List.length fields))); Lit " topics:"]]
     ++ map (fun t => Print (topic_line t)) heads)
     ++ (if (Z.of_nat (List.length fields) >? 5)%Z
         then [Print [Lit "  ... and ";
                      Fmt (JInt (Z.of_nat (List.length fields) - 5)); Lit " more"]]
         else []))%list,
   Ok (map snd fields)).
Proof.
  intros Hw Hs Hb Hh. unfold report_topics, fetch_topics, bind at 1 2, print at 1, emit.
  rewrite (fetch_json _ _ _ _ Hw Hs Hb).
  unfold normalize_topics, py_items, bind at 1 2 3, ret at 1 2. simpl fst. simpl snd.
  unfold bind at 1, print at 1, emit. unfold bind at 1.
  rewrite Hh, show_topics_run, length_map.
  unfold bind. destruct (Z.of_nat (List.length fields) >? 5)%Z; reflexivity.
Qed.

(** C1. For every topics response that is a valid JSON keyed mapping,
    [fetch_topics] followed by the normalization of line 63 yields the
    values of the mapping: as many elements as the mapping has entries, the
    element at each position being the value of the entry at that position
    in the mapping's iteration order. *)
Theorem C1_normalization_keeps_count_and_order :
  forall (w : world) (r : response) (fields : list (string * json)),
    w (topics_url new_fetcher) = Responded r ->
    ~ error_status r ->
    body r = Json (JObj fields) ->
    exists topics : list json,
      (topics <- fetch_topics new_fetcher ;; normalize_topics topics) w
      = ([HttpGet (topics_url new_fetcher)], Ok topics)
      /\ List.length topics = List.length fields
      /\ forall i, nth_error topics i = option_map snd (nth_error fields i).
Proof.
  intros w r fields Hw Hs Hb. exists (map snd fields). repeat split.
  - unfold fetch_topics. rewrite (bind_Ok _ _ _ _ _ (fetch_json _ _ _ _ Hw Hs Hb)).
    reflexivity.
  - apply length_map.
  - intros i. apply nth_error_map.
Qed.

(** C5. After normalization the reporter prints the count, then one line per
    entry for exactly the first five entries, with the entry's [name] and
    [title] and "N/A" in place of a missing one, without raising; a line
    "... and N more" follows if and only if the count exceeds 5, and then
    N is the count minus 5. *)
Theorem C5_count_first_five_and_remainder :
  forall (w : world) (r : response) (fields : list (string * json))
         (heads : list (list (string * json))),
    w (topics_url new_fetcher) = Responded r ->
    ~ error_status r ->
    body r = Json (JObj fields) ->
    firstn 5 (map snd fields) = map JObj heads ->
    let count := Z.of_nat (List.length fields) in
    exists more : list event,
      report_topics new_fetcher w =
      ((([Print topics_announcement; HttpGet (topics_url new_fetcher);
          Print [Lit "Found "; Fmt (JInt count); Lit " topics:"]]
         ++ map (fun t => Print [Lit "  • "; Fmt (dict_get_or t "name" (JStr "N/A"));
                                 Lit " ("; Fmt (dict_get_or t "title" (JStr "N/A"));
                                 Lit ")"]) heads)
         ++ more)%list,
       Ok (map snd fields))
      /\ List.length heads = Nat.min 5 (List.length fields)
      /\ (forall t key, dict_get t key = None ->
                        dict_get_or t key (JStr "N/A") = JStr "N/A")
      /\ ((count > 5)%Z ->
          more = [Print [Lit "  ... and "; Fmt (JInt (count - 5)); Lit " more"]])
      /\ ((count <= 5)%Z -> more = []).
Proof.
  intros w r fields heads Hw Hs Hb Hh count.
  eexists. split; [exact (report_topics_dict _ _ _ _ _ Hw Hs Hb Hh) | ].
  repeat split.
  - rewrite <- (length_map JObj heads), <- Hh, length_firstn, length_map. reflexivity.
  - intros t key Hnone. unfold dict_get_or. now rewrite Hnone.
  - intros Hgt. fold count. destruct (count >? 5)%Z eqn:E; [reflexivity | lia].
  - intros Hle. fold count. destruct (count >? 5)%Z eqn:E; [lia | reflexivity].
Qed.

(** C8. If the topics endpoint returns a JSON value that is not a keyed
    mapping, the normalization raises whatever the world (there is no check
    before [.items()]), the catch-all handler reports it as
    "Unexpected error", nothing else is printed and the exit status is 1. *)
Theorem C8_non_mapping_topics_is_unexpected_error :
  forall (w : world) (r : response) (v : json),
    w (topics_url new_fetcher) = Responded r ->
    ~ error_status r ->
    body r = Json v ->
    (forall fields, v <> JObj fields) ->
    (forall w', normalize_topics v w' = ([], Raise (attribute_error v "items")))
    /\ run_script w =
       {| events :=
            (banner ++
             [Print topics_announcement; HttpGet (topics_url new_fetcher);
              PrintErr [Lit "❌ Unexpected error: ";
                        Lit ("'" ++ type_name v ++ "' object has no attribute 'items'")]])%list;
          exit_status := 1 |}.
Proof.
  intros w r v Hw Hs Hb Hv. split.
  - intros w'. destruct v; try reflexivity. now elim (Hv fields).
  - erewrite run_script_caught.
    2:{ rewrite main_body_unfold, (report_topics_not_dict _ _ _ _ Hw Hs Hb Hv).
        reflexivity. }
    reflexivity.
Qed.

(** ** Step 4: the details of the first topic *)

Lemma first_topic_skipped f fields rest w :
  (dict_get fields "name" = None
   \/ exists v, dict_get fields "name" = Some v /\ truthy v = false) ->
  report_first_topic f (JObj fields :: rest) w = ([], Ok tt).
Proof.
  intros H. unfold report_first_topic, py_get, bind, ret, dict_get_or.
  destruct H as [-> | [v [-> Hv]]]; simpl; [reflexivity | now rewrite Hv].
Qed.

Lemma in_three_or_details f (extra : list text) topic_id :
  In (topic_details_url f topic_id)
     ([topics_url f; contributors_url f; top_tools_url f] ++ extra)%list ->
  In (topic_details_url f topic_id) extra.
Proof.
  simpl. intros [H | [H | [H | H]]]; try discriminate H. exact H.
Qed.

Lemma run_script_requests (w : world) l1 topics l2 l3 :
  report_topics new_fetcher w = (l1, Ok topics) ->
  report_contributors new_fetcher w = (l2, Ok tt) ->
  report_top_tools new_fetcher w = (l3, Ok tt) ->
  requests (run_script w) =
  ([topics_url new_fetcher; contributors_url new_fetcher; top_tools_url new_fetcher]
   ++ match first_topic_id topics with
      | Some topic_id => [topic_details_url new_fetcher topic_id]
      | None => []
      end)%list.
Proof.
  intros H1 H2 H3.
  pose proof (report_topics_requests new_fetcher w) as R1.
  pose proof (report_contributors_requests new_fetcher w) as R2.
  pose proof (report_top_tools_requests new_fetcher w) as R3.
  pose proof (report_first_topic_requests new_fetcher topics w) as R4.
  rewrite H1 in R1. rewrite H2 in R2. rewrite H3 in R3. simpl fst in *.
  pose proof (main_body_unfold new_fetcher w) as Hb.
  rewrite H1, H2, H3 in Hb.
  destruct (report_first_topic new_fetcher topics w) as [l4 [[] | e]];
    simpl fst in R4;
    [rewrite (run_script_returns _ _ Hb) | rewrite (run_script_caught _ _ _ Hb)];
    unfold requests; cbn [events];
    repeat rewrite requested_app; rewrite R1, R2, R3, R4; simpl;
    try rewrite app_nil_r; reflexivity.
Qed.

(** C6. The hands-on line of the first tutorial reads "No" when the
    [hands_on] field is absent or falsy and "Yes" when it is present and
    truthy. *)
Theorem C6_hands_on_indicator :
  forall (fields : list (string * json)) (rest : list json) (w : world),
    exists indicator : string,
      show_first_tutorial (JArr (JObj fields :: rest)) w =
      ([Print [Lit "  First tutorial: "; Fmt (dict_get_or fields "title" (JStr "N/A"))];
        Print [Lit "  Duration: ";
               Fmt (dict_get_or fields "time_estimation" (JStr "N/A"))];
        Print [Lit "  Hands-on: "; Fmt (JStr indicator)]],
       Ok tt)
      /\ (indicator = "No" <->
          (dict_get fields "hands_on" = None
           \/ exists v, dict_get fields "hands_on" = Some v /\ truthy v = false))
      /\ (indicator = "Yes" <->
          exists v, dict_get fields "hands_on" = Some v /\ truthy v = true).
Proof.
  intros fields rest w.
  exists (if truthy (dict_get_or fields "hands_on" JNull) then "Yes" else "No").
  split; [reflexivity | ]. unfold dict_get_or.
  destruct (dict_get fields "hands_on") as [v | ].
  - destruct (truthy v) eqn:Hv; split; split;
      try discriminate; try reflexivity.
    + intros [[=] | [v' [[= <-] Hf]]]. congruence.
    + intros _. now exists v.
    + intros _. right. now exists v.
    + intros [v' [[= <-] Ht]]. congruence.
  - simpl. split; split; try discriminate; try reflexivity.
    + intros _. now left.
    + intros [v [[=] _]].
Qed.

(** C9. When the [name] of the first topic is present but falsy, step 4 does
    nothing: no error, no request; the run goes on to the success line. *)
Theorem C9_falsy_name_skips_details :
  forall (w : world) l1 fields rest l2 l3 (v : json),
    report_topics new_fetcher w = (l1, Ok (JObj fields :: rest)) ->
    report_contributors new_fetcher w = (l2, Ok tt) ->
    report_top_tools new_fetcher w = (l3, Ok tt) ->
    dict_get fields "name" = Some v ->
    truthy v = false ->
    report_first_topic new_fetcher (JObj fields :: rest) w = ([], Ok tt)
    /\ run_script w =
       {| events := (banner ++ l1 ++ l2 ++ l3 ++ closing)%list; exit_status := 0 |}
    /\ requests (run_script w) =
       [topics_url new_fetcher; contributors_url new_fetcher; top_tools_url new_fetcher].
Proof.
  intros w l1 fields rest l2 l3 v H1 H2 H3 Hname Hv.
  assert (H4 : report_first_topic new_fetcher (JObj fields :: rest) w = ([], Ok tt)).
  { apply first_topic_skipped. right. now exists v. }
  repeat split.
  - exact H4.
  - apply run_script_returns. rewrite main_body_unfold, H1, H2, H3, H4. reflexivity.
  - rewrite (run_script_requests _ _ _ _ _ H1 H2 H3). unfold first_topic_id.
    now rewrite Hname, Hv.
Qed.

(** C4 (amended). Once steps 1-3 have completed, the details of a topic are
    requested exactly when the normalized topics are non-empty and the
    [name] of the first one is present and truthy, and that value is the
    topic id of the request; when [fetch_topics] returns an empty mapping
    the count printed is 0 and the run ends successfully with three
    requests only. *)
Theorem C4_details_fetched_iff_first_name_truthy :
  forall (w : world) l2 l3,
    report_contributors new_fetcher w = (l2, Ok tt) ->
    report_top_tools new_fetcher w = (l3, Ok tt) ->
    (forall l1 topics,
        report_topics new_fetcher w = (l1, Ok topics) ->
        forall topic_id,
          In (topic_details_url new_fetcher topic_id) (requests (run_script w))
          <-> exists fields rest,
                topics = JObj fields :: rest
                /\ dict_get fields "name" = Some topic_id
                /\ truthy topic_id = true)
    /\ (forall r,
          w (topics_url new_fetcher) = Responded r ->
          ~ error_status r ->
          body r = Json (JObj []) ->
          run_script w =
          {| events :=
               (banner ++
                [Print topics_announcement; HttpGet (topics_url new_fetcher);
                 Print [Lit "Found "; Fmt (JInt 0); Lit " topics:"]]
                ++ l2 ++ l3 ++ closing)%list;
             exit_status := 0 |}
          /\ requests (run_script w) =
             [topics_url new_fetcher; contributors_url new_fetcher;
              top_tools_url new_fetcher]).
Proof.
  intros w l2 l3 H2 H3. split.
  - intros l1 topics H1 topic_id.
    rewrite (run_script_requests _ _ _ _ _ H1 H2 H3). split.
    + intros Hin. apply in_three_or_details in Hin.
      unfold first_topic_id in Hin.
      destruct topics as [ | [ | | | | | | fields] rest]; try contradiction.
      destruct (dict_get fields "name") as [v | ] eqn:Hname; [ | contradiction].
      destruct (truthy v) eqn:Hv; [ | contradiction].
      destruct Hin as [[= <-] | []]. now exists fields, rest.
    + intros [fields [rest [-> [Hname Hv]]]]. unfold first_topic_id.
      rewrite Hname, Hv. apply in_or_app. right. now left.
  - intros r Hw Hs Hb.
    assert (H1 : report_topics new_fetcher w =
                 ([Print topics_announcement; HttpGet (topics_url new_fetcher);
                   Print [Lit "Found "; Fmt (JInt 0); Lit " topics:"]], Ok [])).
    { now rewrite (report_topics_dict _ _ _ [] [] Hw Hs Hb). }
    split.
    + apply run_script_returns. rewrite main_body_unfold, H1, H2, H3. reflexivity.
    + now rewrite (run_script_requests _ _ _ _ _ H1 H2 H3).
Qed.

(** ** The whole run *)

Lemma main_body_requests f w :
  exists n topic_id,
    requested (fst (main_body f w)) = firstn n (request_plan f topic_id)
    /\ (forall l, main_body f w = (l, Ok tt) -> 3 <= n).
Proof.
  pose proof (report_topics_requests f w) as R1.
  pose proof (report_contributors_requests f w) as R2.
  pose proof (report_top_tools_requests f w) as R3.
  rewrite main_body_unfold.
  destruct (report_topics f w) as [l1 [topics | e]]; simpl fst in R1.
  2:{ exists 1, JNull. split; [ | discriminate]. cbn [fst].
      now rewrite requested_app, R1. }
  destruct (report_contributors f w) as [l2 [[] | e]]; simpl fst in R2.
  2:{ exists 2, JNull. split; [ | discriminate]. cbn [fst].
      now rewrite !requested_app, R1, R2. }
  destruct (report_top_tools f w) as [l3 [[] | e]]; simpl fst in R3.
  2:{ exists 3, JNull. split; [ | discriminate]. cbn [fst].
      now rewrite !requested_app, R1, R2, R3. }
  pose proof (report_first_topic_requests f topics w) as R4.
  destruct (first_topic_id topics) as [topic_id | ];
    [exists 4, topic_id | exists 3, JNull];
    (split; [ | intros; lia]);
    destruct (report_first_topic f topics w) as [l4 [[] | e]]; simpl fst in R4;
    cbn [fst]; now rewrite !requested_app, R1, R2, R3, R4.
Qed.

(** ** Failed fetches *)

Lemma run_script_requested_in_body (w : world) (target : text) :
  In target (requests (run_script w)) ->
  In (HttpGet target) (fst (main_body new_fetcher w)).
Proof.
  destruct (main_body new_fetcher w) as [l [[] | e]] eqn:Hb.
  - rewrite (run_script_returns _ _ Hb). apply in_requested.
  - rewrite (run_script_caught _ _ _ Hb). unfold requests. cbn [events fst].
    rewrite requested_app, in_app_iff, in_requested.
    intros [H | H]; [exact H | destruct H].
Qed.

Lemma failed_fetch_run (w : world) (target : text) (e : exn) :
  In target (requests (run_script w)) ->
  snd (fetch target w) = Raise e ->
  is_RequestException e = true ->
  exists before,
    run_script w =
    {| events := (before ++ [HttpGet target; PrintErr (fetch_error_line e)])%list;
       exit_status := 1 |}.
Proof.
  intros Hin Hf He. apply run_script_requested_in_body in Hin.
  destruct (main_body_stops_at_failure new_fetcher w target e Hin Hf) as [before Hb].
  exists before. rewrite (run_script_caught _ _ _ Hb), He, <- app_assoc.
  reflexivity.
Qed.

Lemma failed_fetch_stderr (w : world) (target : text) (e : exn) :
  In target (requests (run_script w)) ->
  snd (fetch target w) = Raise e ->
  is_RequestException e = true ->
  exists before,
    run_script w =
    {| events := (before ++ [HttpGet target; PrintErr (fetch_error_line e)])%list;
       exit_status := 1 |}
    /\ printed_err before = [].
Proof.
  intros Hin Hf He. apply run_script_requested_in_body in Hin.
  destruct (main_body_stops_at_failure new_fetcher w target e Hin Hf) as [before Hb].
  pose proof (main_body_silent_on_stderr new_fetcher w) as Hq.
  rewrite Hb in Hq. simpl in Hq. rewrite printed_err_app, app_nil_r in Hq.
  exists before. split; [ | exact Hq].
  rewrite (run_script_caught _ _ _ Hb), He, <- app_assoc. reflexivity.
Qed.

(** C2 (amended). For every endpoint requested in a run, if its response has
    a 4xx or 5xx status, the run stops there: what is observed ends with the
    request followed by a line on the error stream, "Error fetching data"
    with the message of the HTTP error; it is the only line on that stream,
    nothing is printed after the request, and the exit status is 1. *)
Theorem C2_error_status_aborts_run :
  forall (w : world) (target : text) (r : response),
    In target (requests (run_script w)) ->
    w target = Responded r ->
    (400 <= status_code r < 600)%Z ->
    exists before kind,
      (kind = " Client Error: " \/ kind = " Server Error: ")
      /\ run_script w =
         {| events :=
              (before ++
               [HttpGet target;
                PrintErr [Lit "❌ Error fetching data: ";
                          Fmt (JInt (status_code r)); Lit kind; Lit (reason r);
                          Lit " for url: "; Lit (url r)]])%list;
            exit_status := 1 |}
      /\ stderr (run_script w) =
         [[Lit "❌ Error fetching data: ";
           Fmt (JInt (status_code r)); Lit kind; Lit (reason r);
           Lit " for url: "; Lit (url r)]].
Proof.
  intros w target r Hin Hw Hs.
  destruct (raise_for_status_raises r w Hs) as [kind [Hkind Hr]].
  assert (Hf : snd (fetch target w) =
               Raise (Exn HTTPError [Fmt (JInt (status_code r)); Lit kind;
                                     Lit (reason r); Lit " for url: "; Lit (url r)])).
  { unfold fetch, bind, requests_get. now rewrite Hw, Hr. }
  destruct (failed_fetch_stderr w target _ Hin Hf eq_refl) as [before [Hrun Hquiet]].
  exists before, kind. split; [exact Hkind | ]. split; [exact Hrun | ].
  rewrite Hrun. unfold stderr. cbn [events].
  rewrite printed_err_app, Hquiet. reflexivity.
Qed.

(** C3 (amended). For every response whose body is not valid JSON (and whose
    status is not an error status), the decode failure is the JSON error of
    [requests], a [RequestException]: the first handler catches it, the line
    on the error stream reads "Error fetching data" with the decoder's
    message, and the exit status is 1. *)
Theorem C3_invalid_json_is_fetch_error :
  forall (w : world) (target : text) (r : response) (msg : string),
    In target (requests (run_script w)) ->
    w target = Responded r ->
    ~ error_status r ->
    body r = NotJson msg ->
    exists before,
      run_script w =
      {| events :=
           (before ++
            [HttpGet target; PrintErr [Lit "❌ Error fetching data: "; Lit msg]])%list;
         exit_status := 1 |}.
Proof.
  intros w target r msg Hin Hw Hs Hb.
  apply (failed_fetch_run w target (Exn JSONDecodeError [Lit msg]) Hin);
    [ | reflexivity].
  now rewrite (fetch_not_json _ _ _ _ Hw Hs Hb).
Qed.


(** ** The claims at concrete worlds *)

(** C1 at [sample_world]: seven entries, seven values in the same order. *)
Lemma C1_witness :
  ~ error_status sample_response
  /\ exists topics : list json,
       (topics <- fetch_topics new_fetcher ;; normalize_topics topics) sample_world
       = ([HttpGet (topics_url new_fetcher)], Ok topics)
       /\ List.length topics = List.length seven_fields
       /\ forall i, nth_error topics i = option_map snd (nth_error seven_fields i).
Proof.
  assert (Hs : ~ error_status sample_response) by (unfold error_status; simpl; lia).
  split; [exact Hs | ].
  apply (C1_normalization_keeps_count_and_order sample_world sample_response seven_fields);
    [reflexivity | exact Hs | reflexivity].
Defined.

(** C2 as first stated fails: a 300 answer with a JSON body is read like
    any other, the run makes its three requests, prints nothing on the error
    stream and exits with status 0. *)
Lemma C2_counterexample :
  multiple_choices_world (topics_url new_fetcher) = Responded multiple_choices
  /\ status_code multiple_choices = 300%Z
  /\ requests (run_script multiple_choices_world) =
     [topics_url new_fetcher; contributors_url new_fetcher; top_tools_url new_fetcher]
  /\ stderr (run_script multiple_choices_world) = []
  /\ exit_status (run_script multiple_choices_world) = 0%Z.
Proof. repeat split. Qed.

(** C2 (amended) at [not_found_world]: the 404 of the contributors endpoint. *)
Lemma C2_witness :
  exists before kind,
    (kind = " Client Error: " \/ kind = " Server Error: ")
    /\ run_script not_found_world =
       {| events :=
            (before ++
             [HttpGet (contributors_url new_fetcher);
              PrintErr [Lit "❌ Error fetching data: ";
                        Fmt (JInt 404); Lit kind; Lit "Not Found"; Lit " for url: ";
                        Lit (url not_found)]])%list;
          exit_status := 1 |}
    /\ stderr (run_script not_found_world) =
       [[Lit "❌ Error fetching data: ";
         Fmt (JInt 404); Lit kind; Lit "Not Found"; Lit " for url: ";
         Lit (url not_found)]].
Proof.
  apply (C2_error_status_aborts_run not_found_world (contributors_url new_fetcher)
           not_found);
    [vm_compute; tauto | reflexivity | simpl; lia].
Defined.

(** C3 as first stated fails: a body that is not JSON gives the line
    "Error fetching data", not "Unexpected error". *)
Lemma C3_counterexample :
  html_world (topics_url new_fetcher) = Responded html_page
  /\ body html_page = NotJson "Expecting value: line 1 column 1 (char 0)"
  /\ stderr (run_script html_world) =
     [[Lit "❌ Error fetching data: "; Lit "Expecting value: line 1 column 1 (char 0)"]]
  /\ stderr (run_script html_world) <>
     [[Lit "❌ Unexpected error: "; Lit "Expecting value: line 1 column 1 (char 0)"]]
  /\ exit_status (run_script html_world) = 1%Z.
Proof. repeat split. discriminate. Qed.

(** C3 (amended) at [html_world]. *)
Lemma C3_witness :
  exists before,
    run_script html_world =
    {| events :=
         (before ++
          [HttpGet (topics_url new_fetcher);
           PrintErr [Lit "❌ Error fetching data: ";
                     Lit "Expecting value: line 1 column 1 (char 0)"]])%list;
       exit_status := 1 |}.
Proof.
  apply (C3_invalid_json_is_fetch_error html_world (topics_url new_fetcher) html_page);
    [vm_compute; tauto | reflexivity | unfold error_status; simpl; lia | reflexivity].
Defined.

(** C4 as first stated fails: the only topic has a [name] field, the empty
    string, and no details are requested. *)
Lemma C4_counterexample :
  snd (report_topics new_fetcher unnamed_world) = Ok [JObj unnamed_fields]
  /\ dict_get unnamed_fields "name" = Some (JStr "")
  /\ requests (run_script unnamed_world) =
     [topics_url new_fetcher; contributors_url new_fetcher; top_tools_url new_fetcher]
  /\ exit_status (run_script unnamed_world) = 0%Z.
Proof. repeat split. Qed.

(** C4 (amended) at [sample_world], where the details of topic "a" are
    requested, and at [no_topics_world], where none are. *)
Lemma C4_witness :
  (In (topic_details_url new_fetcher (JStr "a")) (requests (run_script sample_world))
   <-> exists fields rest,
         map snd seven_fields = JObj fields :: rest
         /\ dict_get fields "name" = Some (JStr "a")
         /\ truthy (JStr "a") = true)
  /\ requests (run_script no_topics_world) =
     [topics_url new_fetcher; contributors_url new_fetcher; top_tools_url new_fetcher].
Proof.
  split.
  - eapply (proj1 (C4_details_fetched_iff_first_name_truthy sample_world _ _
                     eq_refl eq_refl)).
    reflexivity.
  - eapply (proj2 (C4_details_fetched_iff_first_name_truthy no_topics_world _ _
                     eq_refl eq_refl) no_topics_response);
      [reflexivity | unfold error_status; simpl; lia | reflexivity].
Defined.

(** C5 at [sample_world]: seven topics, five lines and "... and 2 more". *)
Lemma C5_witness :
  exists more : list event,
    report_topics new_fetcher sample_world =
    ((([Print topics_announcement; HttpGet (topics_url new_fetcher);
        Print [Lit "Found "; Fmt (JInt 7); Lit " topics:"]]
       ++ map (fun t => Print [Lit "  • "; Fmt (dict_get_or t "name" (JStr "N/A"));
                               Lit " ("; Fmt (dict_get_or t "title" (JStr "N/A"));
                               Lit ")"])
              [topic_fields "a" "Alpha"; topic_fields "b" "Beta";
               topic_fields "c" "Gamma"; topic_fields "d" "Delta";
               topic_fields "e" "Epsilon"])
       ++ more)%list,
     Ok (map snd seven_fields))
    /\ more = [Print [Lit "  ... and "; Fmt (JInt 2); Lit " more"]].
Proof.
  destruct (C5_count_first_five_and_remainder sample_world sample_response seven_fields
              [topic_fields "a" "Alpha"; topic_fields "b" "Beta";
               topic_fields "c" "Gamma"; topic_fields "d" "Delta";
               topic_fields "e" "Epsilon"])
    as [more [Hrun [_ [_ [Hmore _]]]]];
    [reflexivity | unfold error_status; simpl; lia | reflexivity | reflexivity | ].
  exists more. split; [exact Hrun | apply Hmore; simpl; lia].
Defined.

(** C8 at [array_world]: the topics are a JSON array. *)
Lemma C8_witness :
  run_script array_world =
  {| events :=
       (banner ++
        [Print topics_announcement; HttpGet (topics_url new_fetcher);
         PrintErr [Lit "❌ Unexpected error: ";
                   Lit "'list' object has no attribute 'items'"]])%list;
     exit_status := 1 |}.
Proof.
  apply (C8_non_mapping_topics_is_unexpected_error array_world array_response (JArr []));
    [reflexivity | unfold error_status; simpl; lia | reflexivity | discriminate].
Defined.

(** C9 at [unnamed_world]: the name of the first topic is the empty string. *)
Lemma C9_witness :
  requests (run_script unnamed_world) =
  [topics_url new_fetcher; contributors_url new_fetcher; top_tools_url new_fetcher].
Proof.
  eapply (C9_falsy_name_skips_details unnamed_world _ unnamed_fields [] _ _ (JStr ""));
    reflexivity.
Defined.

(** ** The examples of the specification *)

Example two_topics_printed :
  render_all (printed (fst (report_topics new_fetcher two_topics_world))) =
  [Some (nl ++ "📚 Fetching all topics..."); Some "Found 2 topics:";
   Some "  • a (Alpha)"; Some "  • b (Beta)"].
Proof. reflexivity. Qed.

Example seven_topics_printed :
  render_all (printed (fst (report_topics new_fetcher sample_world))) =
  [Some (nl ++ "📚 Fetching all topics..."); Some "Found 7 topics:";
   Some "  • a (Alpha)"; Some "  • b (Beta)"; Some "  • c (Gamma)";
   Some "  • d (Delta)"; Some "  • e (Epsilon)"; Some "  ... and 2 more"].
Proof. reflexivity. Qed.

Example missing_title_printed :
  render (topic_line [("name", JStr "a")]) = Some "  • a (N/A)".
Proof. reflexivity. Qed.

Example not_found_error_line :
  render_all (stderr (run_script not_found_world)) =
  [Some "❌ Error fetching data: 404 Client Error: Not Found for url: https://training.galaxyproject.org/training-material/api/contributors.json"].
Proof. reflexivity. Qed.

Example null_materials_is_unexpected_error :
  let w := serve (ok_json (JObj two_fields)) empty_index empty_index
                 (fun _ => ok_json (JObj [("materials", JNull)])) in
  render_all (stderr (run_script w)) =
  [Some "❌ Unexpected error: object of type 'NoneType' has no len()"]
  /\ exit_status (run_script w) = 1%Z.
Proof. split; reflexivity. Qed.

(** * Further properties of the code *)

(** ** The fetch methods (lines 18-51) *)

(** Each of the five fetch methods makes one GET, to its own URL, and
    prints nothing, whether it returns or raises. *)
Theorem fetch_methods_make_one_request :
  forall (f : GTNMetadataFetcher) (w : world) (topic_id tutorial_id material_type : json),
    fst (fetch_topics f w) = [HttpGet (topics_url f)]
    /\ fst (fetch_contributors f w) = [HttpGet (contributors_url f)]
    /\ fst (fetch_topic_details f topic_id w) = [HttpGet (topic_details_url f topic_id)]
    /\ fst (fetch_tutorial f topic_id tutorial_id material_type w) =
       [HttpGet (tutorial_url f topic_id tutorial_id material_type)]
    /\ fst (fetch_top_tools f w) = [HttpGet (top_tools_url f)].
Proof.
  intros. repeat split; apply fetch_log.
Qed.

(** A fetch returns a value exactly when the server answered, the status
    is outside 400..599 and the body decodes to that value. *)
Theorem fetch_returns_iff :
  forall (target : text) (w : world) (v : json),
    snd (fetch target w) = Ok v
    <-> exists r, w target = Responded r /\ ~ error_status r /\ body r = Json v.
Proof.
  intros target w v. split.
  - intros Hf. destruct (w target) as [msg | r] eqn:Hw.
    + rewrite (fetch_connection_failed _ _ _ Hw) in Hf. discriminate.
    + destruct (error_status_dec r) as [Hs | Hs].
      * rewrite (fetch_http_error _ _ _ Hw Hs) in Hf. discriminate.
      * destruct (body r) as [msg | msg | msg | v'] eqn:Hb.
        -- rewrite (fetch_not_json _ _ _ _ Hw Hs Hb) in Hf. discriminate.
        -- rewrite (fetch_integer_too_long _ _ _ _ Hw Hs Hb) in Hf. discriminate.
        -- rewrite (fetch_nested_too_deep _ _ _ _ Hw Hs Hb) in Hf. discriminate.
        -- rewrite (fetch_json _ _ _ _ Hw Hs Hb) in Hf. injection Hf as <-.
           now exists r.
  - intros [r [Hw [Hs Hb]]]. now rewrite (fetch_json _ _ _ _ Hw Hs Hb).
Qed.


(** ** Failures seen from the whole run (lines 100-105) *)

(** When an endpoint the run asks for does not answer, the run stops at
    that request: the message of the transport error is reported as
    "Error fetching data" and the exit status is 1. *)
Theorem transport_failure_aborts_run :
  forall (w : world) (target : text) (msg : string),
    In target (requests (run_script w)) ->
    w target = ConnectionFailed msg ->
    exists before,
      run_script w =
      {| events :=
           (before ++
            [HttpGet target; PrintErr [Lit "❌ Error fetching data: "; Lit msg]])%list;
         exit_status := 1 |}.
Proof.
  intros w target msg Hin Hw.
  apply (failed_fetch_run w target (Exn RequestException [Lit msg]) Hin);
    [ | reflexivity].
  now rewrite (fetch_connection_failed _ _ _ Hw).
Qed.

(** The error stream tells the exit status: it stays empty in a run that
    exits with 0, and in a run that exits with 1 it holds one line, which
    is the last thing the run does. *)
Theorem stderr_tells_the_exit_status :
  forall w : world,
    (exit_status (run_script w) = 0%Z /\ stderr (run_script w) = [])
    \/ (exit_status (run_script w) = 1%Z
        /\ exists before line,
             events (run_script w) = (before ++ [PrintErr line])%list
             /\ stderr (run_script w) = [line]).
Proof.
  intros w. pose proof (main_body_silent_on_stderr new_fetcher w) as Hq.
  destruct (main_body new_fetcher w) as [l [[] | e]] eqn:Hb; simpl in Hq.
  - left. rewrite (run_script_returns _ _ Hb). now split.
  - right. rewrite (run_script_caught _ _ _ Hb). split; [reflexivity | ].
    eexists l, _. split; [reflexivity | ].
    unfold stderr. cbn [events]. now rewrite printed_err_app, Hq.
Qed.


(** ** The requests of a run *)

Lemma run_script_requests_body (w : world) :
  requests (run_script w) = requested (fst (main_body new_fetcher w)).
Proof.
  destruct (main_body new_fetcher w) as [l [[] | e]] eqn:Hb.
  - now rewrite (run_script_returns _ _ Hb).
  - rewrite (run_script_caught _ _ _ Hb). unfold requests. cbn [events fst].
    rewrite requested_app. apply app_nil_r.
Qed.

Lemma main_body_first_request f w :
  exists rest, requested (fst (main_body f w)) = topics_url f :: rest.
Proof.
  pose proof (report_topics_requests f w) as R1. rewrite main_body_unfold.
  destruct (report_topics f w) as [l1 [topics | e]]; simpl fst in R1.
  2:{ exists []. cbn [fst]. now rewrite requested_app, R1. }
  destruct (report_contributors f w) as [l2 [[] | e]].
  2:{ eexists. cbn [fst]. rewrite !requested_app, R1. reflexivity. }
  destruct (report_top_tools f w) as [l3 [[] | e]].
  2:{ eexists. cbn [fst]. rewrite !requested_app, R1. reflexivity. }
  destruct (report_first_topic f topics w) as [l4 [[] | e]];
    eexists; cbn [fst]; rewrite !requested_app, R1; reflexivity.
Qed.

Lemma request_plan_NoDup f topic_id : NoDup (request_plan f topic_id).
Proof.
  unfold request_plan.
  repeat (constructor; [simpl; intuition discriminate | ]). constructor.
Qed.

(** Every run asks for the topics first, makes at most three more
    requests and never asks for the same URL twice. *)
Theorem requests_are_few_and_distinct :
  forall w : world,
    exists rest,
      requests (run_script w) = topics_url new_fetcher :: rest
      /\ List.length rest <= 3
      /\ NoDup (requests (run_script w)).
Proof.
  intros w. rewrite run_script_requests_body.
  destruct (main_body_first_request new_fetcher w) as [rest Hfirst].
  destruct (main_body_requests new_fetcher w) as [n [topic_id [Hplan _]]].
  exists rest. split; [exact Hfirst | ].
  pose proof (request_plan_NoDup new_fetcher topic_id) as Hnd.
  rewrite Hplan in *. unfold request_plan in *.
  destruct n as [ | [ | [ | [ | n]]]]; simpl in Hfirst; try discriminate;
    injection Hfirst as <-; simpl; rewrite ?firstn_nil; simpl; (split; [lia | ]);
    repeat match goal with
           | H : NoDup (_ :: _) |- _ => inversion H; clear H; subst
           end;
    repeat (constructor; [simpl in *; intuition | ]); constructor.
Qed.

(** Every request of a run goes to a URL under the base URL fixed in
    [__init__]. *)
Theorem requests_stay_under_base_url :
  forall (w : world) (target : text),
    In target (requests (run_script w)) ->
    exists rest,
      target = Lit "https://training.galaxyproject.org/training-material/api" :: rest.
Proof.
  intros w target Hin. rewrite run_script_requests_body in Hin.
  destruct (main_body_requests new_fetcher w) as [n [topic_id [Hplan _]]].
  rewrite Hplan in Hin. unfold request_plan in Hin.
  destruct n as [ | [ | [ | [ | n]]]]; simpl in Hin; rewrite ?firstn_nil in Hin;
    repeat (destruct Hin as [<- | Hin]; [eexists; reflexivity | ]);
    destruct Hin.
Qed.

(** ** Steps 2 and 3: the two counts (lines 70-78) *)

(** The contributors are counted with [len]: the entries of a mapping, but
    as well the elements of a list or the characters of a string; for any
    other JSON value nothing is printed after the announcement and a
    [TypeError] is raised. *)
Theorem contributors_are_counted_by_len :
  forall (f : GTNMetadataFetcher) (w : world) (r : response) (v : json),
    w (contributors_url f) = Responded r ->
    ~ error_status r ->
    body r = Json v ->
    let counted n :=
      report_contributors f w =
      ([Print contributors_announcement; HttpGet (contributors_url f);
        Print [Lit "Found "; Fmt (JInt (Z.of_nat n)); Lit " contributors"]], Ok tt) in
    (forall fields, v = JObj fields -> counted (List.length fields))
    /\ (forall items, v = JArr items -> counted (List.length items))
    /\ (forall s, v = JStr s -> counted (str_len s))
    /\ (unsized v ->
        report_contributors f w =
        ([Print contributors_announcement; HttpGet (contributors_url f)],
         Raise (Exn TypeError
                    [Lit ("object of type '" ++ type_name v ++ "' has no len()")]))).
Proof.
  intros f w r v Hw Hs Hb counted. subst counted.
  unfold report_contributors, fetch_contributors, bind, print, emit.
  rewrite (fetch_json _ _ _ _ Hw Hs Hb).
  repeat split; intros; subst; try reflexivity.
  destruct v; try contradiction; reflexivity.
Qed.

(** The same for the top tools. *)
Theorem top_tools_are_counted_by_len :
  forall (f : GTNMetadataFetcher) (w : world) (r : response) (v : json),
    w (top_tools_url f) = Responded r ->
    ~ error_status r ->
    body r = Json v ->
    let counted n :=
      report_top_tools f w =
      ([Print top_tools_announcement; HttpGet (top_tools_url f);
        Print [Lit "Found "; Fmt (JInt (Z.of_nat n)); Lit " tools with tutorials"]],
       Ok tt) in
    (forall fields, v = JObj fields -> counted (List.length fields))
    /\ (forall items, v = JArr items -> counted (List.length items))
    /\ (forall s, v = JStr s -> counted (str_len s))
    /\ (unsized v ->
        report_top_tools f w =
        ([Print top_tools_announcement; HttpGet (top_tools_url f)],
         Raise (Exn TypeError
                    [Lit ("object of type '" ++ type_name v ++ "' has no len()")]))).
Proof.
  intros f w r v Hw Hs Hb counted. subst counted.
  unfold report_top_tools, fetch_top_tools, bind, print, emit.
  rewrite (fetch_json _ _ _ _ Hw Hs Hb).
  repeat split; intros; subst; try reflexivity.
  destruct v; try contradiction; reflexivity.
Qed.

(** ** Step 4: what the details may look like (lines 85-95) *)

Lemma report_topic_details_fetched f topic_id w r d :
  w (topic_details_url f topic_id) = Responded r -> ~ error_status r ->
  body r = Json d ->
  report_topic_details f topic_id w =
  let (l, res) :=
    (tutorials <- py_get d "materials" (JArr []) ;;
     n <- py_len tutorials ;;
     print (tutorial_count_line n) ;;
     if truthy tutorials then show_first_tutorial tutorials else ret tt) w in
  (Print (details_announcement topic_id) :: HttpGet (topic_details_url f topic_id) :: l,
   res).
Proof.
  intros Hw Hs Hb. unfold report_topic_details, fetch_topic_details.
  unfold bind at 1 2, print at 1, emit. rewrite (fetch_json _ _ _ _ Hw Hs Hb).
  cbn [fst snd app]. unfold tutorial_count_line.
  match goal with |- _ = (let (_, _) := ?y in _) => destruct y end.
  reflexivity.
Qed.

(** Details that are not a mapping: the announcement and the request are
    followed by an [AttributeError]; no count is printed. *)
Theorem details_not_a_mapping :
  forall (f : GTNMetadataFetcher) (topic_id : json) (w : world) (r : response) (d : json),
    w (topic_details_url f topic_id) = Responded r ->
    ~ error_status r ->
    body r = Json d ->
    (forall fields, d <> JObj fields) ->
    report_topic_details f topic_id w =
    ([Print (details_announcement topic_id); HttpGet (topic_details_url f topic_id)],
     Raise (Exn AttributeError
                [Lit ("'" ++ type_name d ++ "' object has no attribute 'get'")])).
Proof.
  intros f topic_id w r d Hw Hs Hb Hd.
  rewrite (report_topic_details_fetched _ _ _ _ _ Hw Hs Hb).
  destruct d; try reflexivity. now elim (Hd fields).
Qed.

(** No tutorials: when [materials] is absent, or is an empty list, an empty
    string or an empty mapping, the count printed is 0, nothing is shown
    about a first tutorial and nothing is raised. *)
Theorem details_without_tutorials :
  forall (f : GTNMetadataFetcher) (topic_id : json) (w : world) (r : response)
         (fields : list (string * json)),
    w (topic_details_url f topic_id) = Responded r ->
    ~ error_status r ->
    body r = Json (JObj fields) ->
    (dict_get fields "materials" = None
     \/ dict_get fields "materials" = Some (JArr [])
     \/ dict_get fields "materials" = Some (JStr "")
     \/ dict_get fields "materials" = Some (JObj [])) ->
    report_topic_details f topic_id w =
    ([Print (details_announcement topic_id); HttpGet (topic_details_url f topic_id);
      Print [Lit "  Topic has "; Fmt (JInt 0); Lit " tutorials"]],
     Ok tt).
Proof.
  intros f topic_id w r fields Hw Hs Hb Hm.
  rewrite (report_topic_details_fetched _ _ _ _ _ Hw Hs Hb).
  unfold py_get, dict_get_or, bind, ret.
  destruct Hm as [-> | [-> | [-> | ->]]]; reflexivity.
Qed.

(** The usual case: [materials] is a list whose first element is a
    mapping.  The count is the length of the list, and the three lines that
    follow are about the first element only. *)
Theorem details_with_tutorials :
  forall (f : GTNMetadataFetcher) (topic_id : json) (w : world) (r : response)
         (fields tutorial : list (string * json)) (others : list json),
    w (topic_details_url f topic_id) = Responded r ->
    ~ error_status r ->
    body r = Json (JObj fields) ->
    dict_get fields "materials" = Some (JArr (JObj tutorial :: others)) ->
    report_topic_details f topic_id w =
    ([Print (details_announcement topic_id); HttpGet (topic_details_url f topic_id);
      Print [Lit "  Topic has "; Fmt (JInt (Z.of_nat (S (List.length others))));
             Lit " tutorials"];
      Print [Lit "  First tutorial: "; Fmt (dict_get_or tutorial "title" (JStr "N/A"))];
      Print [Lit "  Duration: ";
             Fmt (dict_get_or tutorial "time_estimation" (JStr "N/A"))];
      Print [Lit "  Hands-on: ";
             Fmt (JStr (if truthy (dict_get_or tutorial "hands_on" JNull)
                        then "Yes" else "No"))]],
     Ok tt).
Proof.
  intros f topic_id w r fields tutorial others Hw Hs Hb Hm.
  rewrite (report_topic_details_fetched _ _ _ _ _ Hw Hs Hb).
  unfold py_get at 1, dict_get_or at 1, bind at 1, ret at 1. rewrite Hm.
  reflexivity.
Qed.

(** [materials] present but null, a boolean or a number: the default of
    [.get] does not apply, [len] raises a [TypeError] and no count is
    printed. *)
Theorem details_with_unsized_materials :
  forall (f : GTNMetadataFetcher) (topic_id : json) (w : world) (r : response)
         (fields : list (string * json)) (materials : json),
    w (topic_details_url f topic_id) = Responded r ->
    ~ error_status r ->
    body r = Json (JObj fields) ->
    dict_get fields "materials" = Some materials ->
    unsized materials ->
    report_topic_details f topic_id w =
    ([Print (details_announcement topic_id); HttpGet (topic_details_url f topic_id)],
     Raise (Exn TypeError
                [Lit ("object of type '" ++ type_name materials ++ "' has no len()")])).
Proof.
  intros f topic_id w r fields materials Hw Hs Hb Hm Hu.
  rewrite (report_topic_details_fetched _ _ _ _ _ Hw Hs Hb).
  unfold py_get at 1, dict_get_or at 1, bind at 1, ret at 1. rewrite Hm.
  destruct materials; try contradiction; reflexivity.
Qed.

(** [materials] a non-empty mapping or a non-empty string: the count is
    printed, then [tutorials[0]] fails with [KeyError] on the mapping, and
    on the string yields a character on which [.get] raises. *)
Theorem details_with_materials_not_a_list :
  forall (f : GTNMetadataFetcher) (topic_id : json) (w : world) (r : response)
         (fields : list (string * json)),
    w (topic_details_url f topic_id) = Responded r ->
    ~ error_status r ->
    body r = Json (JObj fields) ->
    (forall entry entries,
        dict_get fields "materials" = Some (JObj (entry :: entries)) ->
        report_topic_details f topic_id w =
        ([Print (details_announcement topic_id); HttpGet (topic_details_url f topic_id);
          Print [Lit "  Topic has "; Fmt (JInt (Z.of_nat (S (List.length entries))));
                 Lit " tutorials"]],
         Raise (Exn KeyError [Lit "0"])))
    /\ (forall c s,
          dict_get fields "materials" = Some (JStr (String c s)) ->
          report_topic_details f topic_id w =
          ([Print (details_announcement topic_id); HttpGet (topic_details_url f topic_id);
            Print [Lit "  Topic has "; Fmt (JInt (Z.of_nat (str_len (String c s))));
                   Lit " tutorials"]],
           Raise (Exn AttributeError [Lit "'str' object has no attribute 'get'"]))).
Proof.
  intros f topic_id w r fields Hw Hs Hb.
  split; intros ? ? Hm;
    rewrite (report_topic_details_fetched _ _ _ _ _ Hw Hs Hb);
    unfold py_get at 1, dict_get_or at 1, bind at 1, ret at 1;
    rewrite Hm; reflexivity.
Qed.

(** A first tutorial that is not a mapping: the count is printed, then
    [.get] raises an [AttributeError]; none of the three lines appears. *)
Theorem details_with_first_tutorial_not_a_mapping :
  forall (f : GTNMetadataFetcher) (topic_id : json) (w : world) (r : response)
         (fields : list (string * json)) (tutorial : json) (others : list json),
    w (topic_details_url f topic_id) = Responded r ->
    ~ error_status r ->
    body r = Json (JObj fields) ->
    dict_get fields "materials" = Some (JArr (tutorial :: others)) ->
    (forall t, tutorial <> JObj t) ->
    report_topic_details f topic_id w =
    ([Print (details_announcement topic_id); HttpGet (topic_details_url f topic_id);
      Print [Lit "  Topic has "; Fmt (JInt (Z.of_nat (S (List.length others))));
             Lit " tutorials"]],
     Raise (Exn AttributeError
                [Lit ("'" ++ type_name tutorial ++ "' object has no attribute 'get'")])).
Proof.
  intros f topic_id w r fields tutorial others Hw Hs Hb Hm Ht.
  rewrite (report_topic_details_fetched _ _ _ _ _ Hw Hs Hb).
  unfold py_get at 1, dict_get_or at 1, bind at 1, ret at 1. rewrite Hm.
  destruct tutorial; try reflexivity. now elim (Ht fields0).
Qed.

(** ** Step 1: an entry that is not a mapping (lines 65-66) *)

Lemma show_topics_stop (good : list (list (string * json))) (bad : json)
    (more : list json) (w : world) :
  (forall fields, bad <> JObj fields) ->
  for_each (map JObj good ++ bad :: more)%list show_topic w =
  (map (fun fields => Print (topic_line fields)) good,
   Raise (attribute_error bad "get")).
Proof.
  intros Hbad. induction good as [ | fields rest IH].
  - simpl. unfold bind at 1. unfold show_topic, bind.
    destruct bad; try reflexivity. now elim (Hbad fields).
  - simpl. unfold bind at 1. unfold show_topic at 1, py_get, bind, ret, print, emit.
    simpl. now rewrite IH.
Qed.

(** When one of the first five topics is not a mapping, the count and the
    lines of the topics before it are printed, then [.get] raises an
    [AttributeError]: the listing stops there. *)
Theorem topic_listing_stops_at_bad_entry :
  forall (f : GTNMetadataFetcher) (w : world) (r : response)
         (fields : list (string * json)) (good : list (list (string * json)))
         (bad : json) (rest : list json),
    w (topics_url f) = Responded r ->
    ~ error_status r ->
    body r = Json (JObj fields) ->
    map snd fields = (map JObj good ++ bad :: rest)%list ->
    List.length good < 5 ->
    (forall t, bad <> JObj t) ->
    report_topics f w =
    (([Print topics_announcement; HttpGet (topics_url f);
       Print [Lit "Found "; Fmt (JInt (Z.of_nat (List.length fields))); Lit " topics:"]]
      ++ map (fun t => Print [Lit "  • "; Fmt (dict_get_or t "name" (JStr "N/A"));
                              Lit " ("; Fmt (dict_get_or t "title" (JStr "N/A"));
                              Lit ")"]) good)%list,
     Raise (Exn AttributeError
                [Lit ("'" ++ type_name bad ++ "' object has no attribute 'get'")])).
Proof.
  intros f w r fields good bad rest Hw Hs Hb Hsplit Hlen Hbad.
  assert (Hfirst : firstn 5 (map snd fields) =
                   (map JObj good ++ bad :: firstn (4 - List.length good) rest)%list).
  { rewrite Hsplit, firstn_app, length_map.
    rewrite firstn_all2 by (rewrite length_map; lia).
    replace (5 - List.length good) with (S (4 - List.length good)) by lia.
    reflexivity. }
  unfold report_topics, fetch_topics, bind at 1 2, print at 1, emit.
  rewrite (fetch_json _ _ _ _ Hw Hs Hb).
  unfold normalize_topics, py_items, bind at 1 2 3, ret at 1 2. simpl fst. simpl snd.
  unfold bind at 1, print at 1, emit. unfold bind at 1.
  rewrite Hfirst, (show_topics_stop _ _ _ _ Hbad), length_map. reflexivity.
Qed.

(** ** What the parts of the script never do *)

Section Guarded.

Variable P : forall A : Type, M A -> Prop.
Variable raisable : exn_class -> Prop.
Variable printable : text -> Prop.

Hypothesis P_ret : forall (A : Type) (a : A), P A (ret a).
Hypothesis P_raise : forall (A : Type) cls msg, raisable cls -> P A (raise (Exn cls msg)).
Hypothesis P_print : forall line, printable line -> P unit (print line).
Hypothesis P_fetch : forall target, P json (fetch target).
Hypothesis P_bind : forall (A B : Type) (m : M A) (k : A -> M B),
    P A m -> (forall a, P B (k a)) -> P B (bind m k).

Hypothesis raisable_AttributeError : raisable AttributeError.
Hypothesis raisable_TypeError : raisable TypeError.
Hypothesis raisable_KeyError : raisable KeyError.
Hypothesis printable_other : forall line, line <> success_line -> printable line.

Ltac guarded :=
  repeat first
    [ apply P_ret | apply P_fetch
    | apply P_raise; assumption
    | apply P_print; apply printable_other; discriminate
    | apply P_bind | intro ].

Lemma guarded_py_items v : P _ (py_items v).
Proof. destruct v; simpl; unfold attribute_error; guarded. Qed.

Lemma guarded_py_get v key default : P _ (py_get v key default).
Proof. destruct v; simpl; unfold attribute_error; guarded. Qed.

Lemma guarded_py_len v : P _ (py_len v).
Proof. destruct v; simpl; guarded. Qed.

(** [tutorials[0]] behind [if tutorials:]. *)
Lemma guarded_py_first v : truthy v = true -> P _ (py_first v).
Proof.
  destruct v as [ | b | n | f | [ | c s] | [ | x items] | fields];
    simpl; intros Hv; try discriminate Hv; guarded.
Qed.

Lemma guarded_show_topic topic : P _ (show_topic topic).
Proof.
  unfold show_topic.
  repeat (apply P_bind; [apply guarded_py_get | intro]). guarded.
Qed.

Lemma guarded_show_topics topics : P _ (for_each topics show_topic).
Proof.
  induction topics as [ | x rest IH]; simpl; [guarded | ].
  apply P_bind; [apply guarded_show_topic | intros _; exact IH].
Qed.

Lemma guarded_report_topics f : P _ (report_topics f).
Proof.
  unfold report_topics, fetch_topics, normalize_topics.
  apply P_bind; [guarded | intros _].
  apply P_bind; [guarded | intros topics].
  apply P_bind; [apply P_bind; [apply guarded_py_items | guarded] | intros values].
  apply P_bind; [guarded | intros _].
  apply P_bind; [apply guarded_show_topics | intros _].
  apply P_bind; [ | guarded].
  destruct (Z.of_nat (List.length values) >? 5)%Z; guarded.
Qed.

Lemma guarded_report_contributors f : P _ (report_contributors f).
Proof.
  unfold report_contributors, fetch_contributors.
  apply P_bind; [guarded | intros _].
  apply P_bind; [guarded | intros contributors].
  apply P_bind; [apply guarded_py_len | guarded].
Qed.

Lemma guarded_report_top_tools f : P _ (report_top_tools f).
Proof.
  unfold report_top_tools, fetch_top_tools.
  apply P_bind; [guarded | intros _].
  apply P_bind; [guarded | intros top_tools].
  apply P_bind; [apply guarded_py_len | guarded].
Qed.

Lemma guarded_show_first_tutorial tutorials :
  truthy tutorials = true -> P _ (show_first_tutorial tutorials).
Proof.
  intros Hv. unfold show_first_tutorial.
  apply P_bind; [now apply guarded_py_first | intros tutorial].
  repeat (apply P_bind; [apply guarded_py_get | intro];
          try (apply P_bind; [guarded | intro])).
  guarded.
Qed.

Lemma guarded_report_topic_details f topic_id : P _ (report_topic_details f topic_id).
Proof.
  unfold report_topic_details, fetch_topic_details.
  apply P_bind; [guarded | intros _].
  apply P_bind; [guarded | intros topic_details].
  apply P_bind; [apply guarded_py_get | intros tutorials].
  apply P_bind; [apply guarded_py_len | intros n].
  apply P_bind; [guarded | intros _].
  destruct (truthy tutorials) eqn:Hv;
    [now apply guarded_show_first_tutorial | guarded].
Qed.

Lemma guarded_report_first_topic f topics : P _ (report_first_topic f topics).
Proof.
  unfold report_first_topic. destruct topics as [ | first_topic rest]; [guarded | ].
  apply P_bind; [apply guarded_py_get | intros topic_id].
  destruct (truthy topic_id); [apply guarded_report_topic_details | guarded].
Qed.

End Guarded.

Lemma never_succeeds_bind (A B : Type) (m : M A) (k : A -> M B) :
  never_succeeds _ m -> (forall a, never_succeeds _ (k a)) ->
  never_succeeds _ (bind m k).
Proof.
  intros Hm Hk w. unfold bind. specialize (Hm w).
  destruct (m w) as [l1 [a | e]]; [ | exact Hm].
  specialize (Hk a w). destruct (k a w) as [l2 r]. simpl in *.
  rewrite in_app_iff. tauto.
Qed.

Lemma never_succeeds_parts f :
  never_succeeds _ (report_topics f)
  /\ never_succeeds _ (report_contributors f)
  /\ never_succeeds _ (report_top_tools f)
  /\ forall topics, never_succeeds _ (report_first_topic f topics).
Proof.
  assert (Hret : forall (A : Type) (a : A), never_succeeds A (ret a))
    by (intros A a w []).
  assert (Hraise : forall (A : Type) cls msg, True -> never_succeeds A (raise (Exn cls msg)))
    by (intros A cls msg _ w []).
  assert (Hprint : forall line, line <> success_line -> never_succeeds unit (print line)).
  { intros line Hline w [[= H] | []]. now apply Hline. }
  assert (Hfetch : forall target, never_succeeds json (fetch target)).
  { intros target w. rewrite fetch_log. intros [[=] | []]. }
  repeat split; intros;
    [ apply (guarded_report_topics never_succeeds (fun _ => True)
               (fun line => line <> success_line))
    | apply (guarded_report_contributors never_succeeds (fun _ => True)
               (fun line => line <> success_line))
    | apply (guarded_report_top_tools never_succeeds (fun _ => True)
               (fun line => line <> success_line))
    | apply (guarded_report_first_topic never_succeeds (fun _ => True)
               (fun line => line <> success_line)) ];
    auto using never_succeeds_bind.
Qed.

Lemma in_printed (l : list event) (line : text) :
  In line (printed l) <-> In (Print line) l.
Proof.
  unfold printed. rewrite in_flat_map. split.
  - intros [ev [Hin Hl]]. destruct ev; simpl in Hl; try contradiction.
    destruct Hl as [-> | []]. exact Hin.
  - intros Hin. exists (Print line). split; [exact Hin | now left].
Qed.

(** The success line is printed in the runs that exit with status 0 and in
    no other. *)
Theorem success_line_iff_exit_status_0 :
  forall w : world,
    In success_line (stdout (run_script w)) <-> exit_status (run_script w) = 0%Z.
Proof.
  intros w. unfold stdout. rewrite in_printed.
  destruct (never_succeeds_parts new_fetcher) as [N1 [N2 [N3 N4]]].
  specialize (N1 w). specialize (N2 w). specialize (N3 w).
  pose proof (main_body_unfold new_fetcher w) as Hb.
  assert (Hbanner : ~ In (Print success_line) banner).
  { unfold banner. simpl. intuition discriminate. }
  destruct (report_topics new_fetcher w) as [l1 [topics | e]].
  2:{ rewrite (run_script_caught _ _ _ Hb). cbn [events exit_status].
      rewrite !in_app_iff. simpl in *. split; [ | discriminate].
      intros [[H | H] | [H | []]]; try tauto; discriminate. }
  destruct (report_contributors new_fetcher w) as [l2 [[] | e]].
  2:{ rewrite (run_script_caught _ _ _ Hb). cbn [events exit_status].
      rewrite !in_app_iff. simpl in *. split; [ | discriminate].
      intros [[H | [H | H]] | [H | []]]; try tauto; discriminate. }
  destruct (report_top_tools new_fetcher w) as [l3 [[] | e]].
  2:{ rewrite (run_script_caught _ _ _ Hb). cbn [events exit_status].
      rewrite !in_app_iff. simpl in *. split; [ | discriminate].
      intros [[H | [H | [H | H]]] | [H | []]]; try tauto; discriminate. }
  specialize (N4 topics w).
  destruct (report_first_topic new_fetcher topics w) as [l4 [[] | e]].
  - rewrite (run_script_returns _ _ Hb). cbn [events exit_status].
    split; [reflexivity | intros _].
    rewrite !in_app_iff. do 5 right. now left.
  - rewrite (run_script_caught _ _ _ Hb). cbn [events exit_status].
    rewrite !in_app_iff. simpl in *. split; [ | discriminate].
    intros [[H | [H | [H | [H | H]]]] | [H | []]]; try tauto; discriminate.
Qed.

Lemma never_IndexError_bind (A B : Type) (m : M A) (k : A -> M B) :
  never_IndexError _ m -> (forall a, never_IndexError _ (k a)) ->
  never_IndexError _ (bind m k).
Proof.
  intros Hm Hk w l msg Hb.
  apply bind_inv in Hb as [[l1 [a [l2 [_ [Hka _]]]]] | [e [Hme [= <-]]]].
  - exact (Hk a w _ _ Hka).
  - exact (Hm w _ _ Hme).
Qed.

Lemma main_body_never_IndexError :
  forall (f : GTNMetadataFetcher) (w : world) (l : list event) (msg : text),
    main_body f w <> (l, Raise (Exn IndexError msg)).
Proof.
  intros f.
  assert (Hret : forall (A : Type) (a : A), never_IndexError A (ret a))
    by (intros A a w l msg [=]).
  assert (Hraise : forall (A : Type) cls msg,
             cls <> IndexError -> never_IndexError A (raise (Exn cls msg))).
  { intros A cls msg Hcls w l msg' [= _ -> _]. now apply Hcls. }
  assert (Hprint : forall line, True -> never_IndexError unit (print line))
    by (intros line _ w l msg [=]).
  assert (Hfetch : forall target, never_IndexError json (fetch target)).
  { intros target w l msg Hf.
    destruct (fetch_cases target w)
      as [[v [r [_ [_ [_ Hv]]]]]
         | [[cls [m [Hr Hreq]]] | [r [cls [m [_ [_ [Hcls Hr]]]]]]]];
      rewrite Hf in *; simpl in *; [discriminate | | ].
    - injection Hr as <- <-. discriminate Hreq.
    - injection Hr as <- _. destruct Hcls as [[_ [=]] | [_ [=]]]. }
  assert (Hparts :
            never_IndexError _ (report_topics f)
            /\ never_IndexError _ (report_contributors f)
            /\ never_IndexError _ (report_top_tools f)
            /\ forall topics, never_IndexError _ (report_first_topic f topics)).
  { repeat split; intros;
      [ apply (guarded_report_topics never_IndexError (fun cls => cls <> IndexError)
                 (fun _ => True))
      | apply (guarded_report_contributors never_IndexError
                 (fun cls => cls <> IndexError) (fun _ => True))
      | apply (guarded_report_top_tools never_IndexError
                 (fun cls => cls <> IndexError) (fun _ => True))
      | apply (guarded_report_first_topic never_IndexError
                 (fun cls => cls <> IndexError) (fun _ => True)) ];
      auto using never_IndexError_bind; discriminate. }
  destruct Hparts as [N1 [N2 [N3 N4]]].
  unfold main_body.
  repeat (apply never_IndexError_bind; [auto | intro]); auto.
Qed.

(** Whatever the body of the [try] raises, it is not an [IndexError]: the
    two subscripts, [topics[0]] and [tutorials[0]], are each behind a test
    that the sequence is not empty. *)
Theorem script_never_raises_IndexError :
  forall (f : GTNMetadataFetcher) (w : world) (l : list event) (e : exn),
    main_body f w = (l, Raise e) ->
    exists cls msg, e = Exn cls msg /\ cls <> IndexError.
Proof.
  intros f w l e Hb.
  pose proof (main_body_raises_Exception f w l e Hb) as He.
  destruct e as [cls msg | code]; [ | discriminate He].
  exists cls, msg. split; [reflexivity | ]. intros ->.
  exact (main_body_never_IndexError f w l msg Hb).
Qed.

(** ** The further properties at concrete worlds *)

Lemma transport_failure_witness :
  exists before,
    run_script offline_world =
    {| events :=
         (before ++
          [HttpGet (contributors_url new_fetcher);
           PrintErr [Lit "❌ Error fetching data: "; Lit "Connection refused"]])%list;
       exit_status := 1 |}.
Proof.
  apply (transport_failure_aborts_run offline_world (contributors_url new_fetcher));
    [vm_compute; tauto | reflexivity].
Defined.


Lemma base_url_witness :
  exists rest,
    topic_details_url new_fetcher (JStr "a") =
    Lit "https://training.galaxyproject.org/training-material/api" :: rest.
Proof.
  apply (requests_stay_under_base_url sample_world); vm_compute; tauto.
Defined.

Lemma contributors_count_witness :
  report_contributors new_fetcher odd_counts_world =
  ([Print contributors_announcement; HttpGet (contributors_url new_fetcher);
    Print [Lit "Found "; Fmt (JInt 3); Lit " contributors"]], Ok tt).
Proof.
  destruct (contributors_are_counted_by_len new_fetcher odd_counts_world
              (ok_response (JArr [JNull; JNull; JNull])) (JArr [JNull; JNull; JNull]))
    as [_ [Hlist _]];
    [reflexivity | unfold error_status; simpl; lia | reflexivity | ].
  exact (Hlist [JNull; JNull; JNull] eq_refl).
Defined.

Lemma top_tools_count_witness :
  report_top_tools new_fetcher odd_counts_world =
  ([Print top_tools_announcement; HttpGet (top_tools_url new_fetcher)],
   Raise (Exn TypeError [Lit "object of type 'NoneType' has no len()"])).
Proof.
  destruct (top_tools_are_counted_by_len new_fetcher odd_counts_world
              (ok_response JNull) JNull)
    as [_ [_ [_ Hnone]]];
    [reflexivity | unfold error_status; simpl; lia | reflexivity | ].
  exact (Hnone I).
Defined.

Lemma details_not_a_mapping_witness :
  report_topic_details new_fetcher (JStr "a") (details_world (JArr [])) =
  ([Print (details_announcement (JStr "a"));
    HttpGet (topic_details_url new_fetcher (JStr "a"))],
   Raise (Exn AttributeError [Lit "'list' object has no attribute 'get'"])).
Proof.
  apply (details_not_a_mapping new_fetcher (JStr "a") (details_world (JArr []))
           (ok_response (JArr [])) (JArr []));
    [reflexivity | unfold error_status; simpl; lia | reflexivity | discriminate].
Defined.

Lemma details_without_tutorials_witness :
  report_topic_details new_fetcher (JStr "a") (details_world (JObj [])) =
  ([Print (details_announcement (JStr "a"));
    HttpGet (topic_details_url new_fetcher (JStr "a"));
    Print [Lit "  Topic has "; Fmt (JInt 0); Lit " tutorials"]],
   Ok tt).
Proof.
  apply (details_without_tutorials new_fetcher (JStr "a") (details_world (JObj []))
           (ok_response (JObj [])) []);
    [reflexivity | unfold error_status; simpl; lia | reflexivity | now left].
Defined.

Lemma details_with_tutorials_witness :
  report_topic_details new_fetcher (JStr "a") (details_world sample_details) =
  ([Print (details_announcement (JStr "a"));
    HttpGet (topic_details_url new_fetcher (JStr "a"));
    Print [Lit "  Topic has "; Fmt (JInt 1); Lit " tutorials"];
    Print [Lit "  First tutorial: "; Fmt (JStr "Intro")];
    Print [Lit "  Duration: "; Fmt (JStr "N/A")];
    Print [Lit "  Hands-on: "; Fmt (JStr "Yes")]],
   Ok tt).
Proof.
  apply (details_with_tutorials new_fetcher (JStr "a") (details_world sample_details)
           (ok_response sample_details)
           [("materials", JArr [JObj [("title", JStr "Intro"); ("hands_on", JBool true)]])]
           [("title", JStr "Intro"); ("hands_on", JBool true)] []);
    [reflexivity | unfold error_status; simpl; lia | reflexivity | reflexivity].
Defined.

Lemma details_with_unsized_materials_witness :
  report_topic_details new_fetcher (JStr "a")
    (details_world (JObj [("materials", JNull)])) =
  ([Print (details_announcement (JStr "a"));
    HttpGet (topic_details_url new_fetcher (JStr "a"))],
   Raise (Exn TypeError [Lit "object of type 'NoneType' has no len()"])).
Proof.
  apply (details_with_unsized_materials new_fetcher (JStr "a")
           (details_world (JObj [("materials", JNull)]))
           (ok_response (JObj [("materials", JNull)])) [("materials", JNull)] JNull);
    [reflexivity | unfold error_status; simpl; lia | reflexivity | reflexivity | exact I].
Defined.

Lemma details_with_materials_not_a_list_witness :
  report_topic_details new_fetcher (JStr "a")
    (details_world (JObj [("materials", JObj [("t1", JNull)])])) =
  ([Print (details_announcement (JStr "a"));
    HttpGet (topic_details_url new_fetcher (JStr "a"));
    Print [Lit "  Topic has "; Fmt (JInt 1); Lit " tutorials"]],
   Raise (Exn KeyError [Lit "0"])).
Proof.
  destruct (details_with_materials_not_a_list new_fetcher (JStr "a")
              (details_world (JObj [("materials", JObj [("t1", JNull)])]))
              (ok_response (JObj [("materials", JObj [("t1", JNull)])]))
              [("materials", JObj [("t1", JNull)])])
    as [Hmap _];
    [reflexivity | unfold error_status; simpl; lia | reflexivity | ].
  exact (Hmap ("t1", JNull) [] eq_refl).
Defined.

Lemma details_with_first_tutorial_not_a_mapping_witness :
  report_topic_details new_fetcher (JStr "a")
    (details_world (JObj [("materials", JArr [JStr "intro"; JStr "advanced"])])) =
  ([Print (details_announcement (JStr "a"));
    HttpGet (topic_details_url new_fetcher (JStr "a"));
    Print [Lit "  Topic has "; Fmt (JInt 2); Lit " tutorials"]],
   Raise (Exn AttributeError [Lit "'str' object has no attribute 'get'"])).
Proof.
  apply (details_with_first_tutorial_not_a_mapping new_fetcher (JStr "a")
           (details_world (JObj [("materials", JArr [JStr "intro"; JStr "advanced"])]))
           (ok_response (JObj [("materials", JArr [JStr "intro"; JStr "advanced"])]))
           [("materials", JArr [JStr "intro"; JStr "advanced"])]
           (JStr "intro") [JStr "advanced"]);
    [reflexivity | unfold error_status; simpl; lia | reflexivity | reflexivity
    | discriminate].
Defined.

Lemma topic_listing_stops_witness :
  report_topics new_fetcher bad_entry_world =
  ([Print topics_announcement; HttpGet (topics_url new_fetcher);
    Print [Lit "Found "; Fmt (JInt 3); Lit " topics:"];
    Print [Lit "  • "; Fmt (JStr "a"); Lit " ("; Fmt (JStr "Alpha"); Lit ")"]],
   Raise (Exn AttributeError [Lit "'str' object has no attribute 'get'"])).
Proof.
  apply (topic_listing_stops_at_bad_entry new_fetcher bad_entry_world
           (ok_response (JObj bad_entry_fields)) bad_entry_fields
           [topic_fields "a" "Alpha"] (JStr "oops")
           [JObj (topic_fields "c" "Gamma")]);
    [reflexivity | unfold error_status; simpl; lia | reflexivity | reflexivity
    | simpl; lia | discriminate].
Defined.

Lemma never_IndexError_witness :
  exists cls msg,
    Exn JSONDecodeError [Lit "Expecting value: line 1 column 1 (char 0)"] = Exn cls msg
    /\ cls <> IndexError.
Proof.
  eapply (script_never_raises_IndexError new_fetcher html_world). reflexivity.
Defined.

(** ** The run from the answers of the server *)

Lemma answers_fetch (w : world) (target : text) (v : json) :
  answers w target v -> fetch target w = ([HttpGet target], Ok v).
Proof.
  intros [r [Hw [Hs Hb]]]. exact (fetch_json _ _ _ _ Hw Hs Hb).
Qed.

Lemma report_contributors_returns f w v :
  answers w (contributors_url f) v -> ~ unsized v ->
  exists l, report_contributors f w = (l, Ok tt).
Proof.
  intros Ha Hv. unfold report_contributors, fetch_contributors, bind, print, emit.
  rewrite (answers_fetch _ _ _ Ha).
  destruct v; simpl in Hv; try (now elim Hv); eexists; reflexivity.
Qed.

Lemma report_top_tools_returns f w v :
  answers w (top_tools_url f) v -> ~ unsized v ->
  exists l, report_top_tools f w = (l, Ok tt).
Proof.
  intros Ha Hv. unfold report_top_tools, fetch_top_tools, bind, print, emit.
  rewrite (answers_fetch _ _ _ Ha).
  destruct v; simpl in Hv; try (now elim Hv); eexists; reflexivity.
Qed.

Lemma report_topic_details_returns f topic_id w details :
  answers w (topic_details_url f topic_id) (JObj details) ->
  well_shaped_tutorials (dict_get_or details "materials" (JArr [])) ->
  exists l, report_topic_details f topic_id w = (l, Ok tt).
Proof.
  intros [r [Hw [Hs Hb]]] [Hsized Hlist].
  rewrite (report_topic_details_fetched _ _ _ _ _ Hw Hs Hb).
  unfold py_get at 1, bind at 1, ret at 1.
  destruct (truthy (dict_get_or details "materials" (JArr []))) eqn:Ht.
  - destruct (Hlist eq_refl) as [tutorial [others Hm]]. rewrite Hm.
    eexists. reflexivity.
  - destruct (dict_get_or details "materials" (JArr []))
      as [ | b | n | x | [ | c s0] | [ | x items] | [ | kv fields]];
      simpl in Hsized, Ht; try (now elim Hsized); try discriminate Ht;
      eexists; reflexivity.
Qed.

Lemma report_first_topic_of_mappings f topics w :
  (topics = [] \/ exists fields rest, topics = JObj fields :: rest) ->
  report_first_topic f topics w =
  match first_topic_id topics with
  | Some topic_id => report_topic_details f topic_id w
  | None => ([], Ok tt)
  end.
Proof.
  intros [-> | [fields [rest ->]]]; [reflexivity | ].
  unfold report_first_topic, first_topic_id, py_get, bind at 1, ret, dict_get_or.
  destruct (dict_get fields "name") as [topic_id | ]; [ | reflexivity].
  destruct (truthy topic_id); [ | reflexivity].
  now destruct (report_topic_details f topic_id w).
Qed.

(** C7 (amended). The requests of a run are, in this order, the topics, the
    contributors, the top tools and then possibly the details of one topic,
    cut where the run stops.  When no fetch fails, no field access raises
    and no [len] raises (every endpoint asked answers with JSON; the topics
    are a mapping whose first five values are mappings; the contributors
    and the top tools have a length; the details, when they are fetched,
    are a mapping whose materials have a length and, if not empty, are a
    list starting with a mapping), the run prints the success line and the
    hint last, nothing on the error stream, and exits with status 0.  When
    something raises, one more line goes to the error stream and the exit
    status is 1. *)
Theorem C7_fixed_order_and_exit_status :
  forall w : world,
    (exists n topic_id,
        requests (run_script w) = firstn n (request_plan new_fetcher topic_id))
    /\ (forall fields heads contributors top_tools,
          answers w (topics_url new_fetcher) (JObj fields) ->
          firstn 5 (map snd fields) = map JObj heads ->
          answers w (contributors_url new_fetcher) contributors ->
          ~ unsized contributors ->
          answers w (top_tools_url new_fetcher) top_tools ->
          ~ unsized top_tools ->
          (forall topic_id,
              first_topic_id (map snd fields) = Some topic_id ->
              exists details,
                answers w (topic_details_url new_fetcher topic_id) (JObj details)
                /\ well_shaped_tutorials
                     (dict_get_or details "materials" (JArr []))) ->
          exit_status (run_script w) = 0%Z
          /\ stderr (run_script w) = []
          /\ (exists before, events (run_script w) = (before ++ closing)%list)
          /\ requests (run_script w) =
             ([topics_url new_fetcher; contributors_url new_fetcher;
               top_tools_url new_fetcher]
              ++ match first_topic_id (map snd fields) with
                 | Some topic_id => [topic_details_url new_fetcher topic_id]
                 | None => []
                 end)%list)
    /\ (forall l e,
          main_body new_fetcher w = (l, Raise e) ->
          exists line,
            run_script w = {| events := (l ++ [PrintErr line])%list; exit_status := 1 |}).
Proof.
  intros w. split; [ | split].
  - destruct (main_body_requests new_fetcher w) as [n [topic_id [Hreq _]]].
    exists n, topic_id. now rewrite run_script_requests_body.
  - intros fields heads contributors top_tools Ht Hheads Hc Hcs Htl Htls Hd.
    destruct Ht as [r [Hw [Hs Hb]]].
    assert (H1 : exists l1,
               report_topics new_fetcher w = (l1, Ok (map snd fields)))
      by (eexists; exact (report_topics_dict _ _ _ _ _ Hw Hs Hb Hheads)).
    destruct H1 as [l1 H1].
    destruct (report_contributors_returns _ _ _ Hc Hcs) as [l2 H2].
    destruct (report_top_tools_returns _ _ _ Htl Htls) as [l3 H3].
    assert (H4 : exists l4,
               report_first_topic new_fetcher (map snd fields) w = (l4, Ok tt)).
    { rewrite report_first_topic_of_mappings.
      - destruct (first_topic_id (map snd fields)) as [topic_id | ] eqn:Hid.
        + destruct (Hd topic_id eq_refl) as [details [Ha Hshape]].
          exact (report_topic_details_returns _ _ _ _ Ha Hshape).
        + now exists [].
      - destruct (map snd fields) as [ | first rest]; [now left | right].
        destruct heads as [ | h heads']; [discriminate Hheads | ].
        injection Hheads as -> _. now exists h, rest. }
    destruct H4 as [l4 H4].
    pose proof (main_body_unfold new_fetcher w) as Hb'.
    rewrite H1, H2, H3, H4 in Hb'.
    pose proof (main_body_silent_on_stderr new_fetcher w) as Hq.
    rewrite Hb' in Hq. simpl fst in Hq.
    pose proof (run_script_requests _ _ _ _ _ H1 H2 H3) as Hreq.
    pose proof (run_script_returns _ _ Hb') as Hrun.
    split; [now rewrite Hrun | ].
    split; [rewrite Hrun; exact Hq | ].
    split; [ | exact Hreq].
    exists (banner ++ l1 ++ l2 ++ l3 ++ l4)%list.
    rewrite Hrun. cbn [events]. now rewrite <- !app_assoc.
  - intros l e Hb. eexists. exact (run_script_caught _ _ _ Hb).
Qed.

(** C7 as first stated fails: in the run of [odd_counts_world] every fetch
    returns and every [.items()] and [.get] goes through, yet [len] raises
    on the null top tools and the exit status is 1. *)
Lemma C7_counterexample :
  (forall target,
      In target (requests (run_script odd_counts_world)) ->
      exists v, snd (fetch target odd_counts_world) = Ok v)
  /\ snd (report_topics new_fetcher odd_counts_world) = Ok (map snd two_fields)
  /\ requests (run_script odd_counts_world) =
     [topics_url new_fetcher; contributors_url new_fetcher; top_tools_url new_fetcher]
  /\ stderr (run_script odd_counts_world) =
     [[Lit "❌ Unexpected error: "; Lit "object of type 'NoneType' has no len()"]]
  /\ exit_status (run_script odd_counts_world) = 1%Z.
Proof.
  split; [ | repeat split].
  intros target Hin. vm_compute in Hin.
  destruct Hin as [<- | [<- | [<- | []]]]; eexists; reflexivity.
Qed.

(** C7 (amended) at [sample_world], where everything has its shape, and at
    [html_world], where the first fetch raises. *)
Lemma C7_witness :
  exit_status (run_script sample_world) = 0%Z
  /\ exit_status (run_script html_world) = 1%Z.
Proof.
  split.
  - destruct (C7_fixed_order_and_exit_status sample_world) as [_ [Hok _]].
    apply (Hok seven_fields
             [topic_fields "a" "Alpha"; topic_fields "b" "Beta";
              topic_fields "c" "Gamma"; topic_fields "d" "Delta";
              topic_fields "e" "Epsilon"]
             (JObj [("x", JNull)]) (JObj [])).
    + eexists; split; [reflexivity | split; [unfold error_status; simpl; lia | reflexivity]].
    + reflexivity.
    + eexists; split; [reflexivity | split; [unfold error_status; simpl; lia | reflexivity]].
    + simpl. tauto.
    + eexists; split; [reflexivity | split; [unfold error_status; simpl; lia | reflexivity]].
    + simpl. tauto.
    + intros topic_id Hid. vm_compute in Hid. injection Hid as <-.
      exists [("materials",
               JArr [JObj [("title", JStr "Intro"); ("hands_on", JBool true)]])].
      split.
      * eexists; split; [reflexivity | split; [unfold error_status; simpl; lia | reflexivity]].
      * split; [simpl; tauto | ]. intros _. now eexists _, _.
  - destruct (C7_fixed_order_and_exit_status html_world) as [_ [_ Hraise]].
    edestruct Hraise as [line Hrun]; [reflexivity | ]. rewrite Hrun. reflexivity.
Defined.



Example long_integer_is_unexpected_error :
  let w := serve (Responded {| status_code := 200; reason := "OK"; url := "";
                               body := IntegerTooLong "Exceeds the limit (4300 digits) for integer string conversion" |})
                 empty_index empty_index (fun _ => empty_index) in
  render_all (stderr (run_script w)) =
  [Some "❌ Unexpected error: Exceeds the limit (4300 digits) for integer string conversion"]
  /\ exit_status (run_script w) = 1%Z.
Proof. split; reflexivity. Qed.
